(** * Schema analysis, query suggestion and result rendering of
    [query_db_direct.py] ([DirectDBQuery]).

    Shallow embedding of the analysis pipeline: [_analyze_table_schema],
    [_generate_table_queries], [_generate_database_insights],
    [analyze_database_schema] and [_format_table_results].  Python strings
    are [string] (one [ascii] per character), Python dicts are association
    lists kept in insertion order, the database access ([get_table_names],
    [get_table_schema]) is a parameter of the analysis. *)

From Stdlib Require Import String Ascii List Bool Arith Lia.
From Stdlib Require Import DecimalString.
From Stdlib Require DecimalNat.
Import ListNotations.
Open Scope string_scope.

(** ** Python string primitives *)

Module Py.

(** [s.startswith(p)]. *)
Fixpoint startswith (s p : string) {struct p} : bool :=
  match p with
  | EmptyString => true
  | String a p' =>
    match s with
    | EmptyString => false
    | String b s' => Ascii.eqb a b && startswith s' p'
    end
  end.

(** [p in s] for strings. *)
Fixpoint contains (p s : string) : bool :=
  startswith s p ||
  match s with
  | EmptyString => false
  | String _ s' => contains p s'
  end.

(** [s.endswith(p)]. *)
Definition endswith (s p : string) : bool :=
  let n := String.length s in
  let m := String.length p in
  Nat.leb m n && String.eqb (substring (n - m) m s) p.

Fixpoint smap (f : ascii -> ascii) (s : string) : string :=
  match s with
  | EmptyString => EmptyString
  | String c s' => String (f c) (smap f s')
  end.

Definition char_lower (c : ascii) : ascii :=
  let n := nat_of_ascii c in
  if Nat.leb 65 n && Nat.leb n 90 then ascii_of_nat (n + 32) else c.

Definition char_upper (c : ascii) : ascii :=
  let n := nat_of_ascii c in
  if Nat.leb 97 n && Nat.leb n 122 then ascii_of_nat (n - 32) else c.

(** [s.lower()] and [s.upper()] on ASCII text. *)
Definition lower (s : string) : string := smap char_lower s.
Definition upper (s : string) : string := smap char_upper s.

(** [any(k in s for k in ks)]. *)
Definition any_in (ks : list string) (s : string) : bool :=
  existsb (fun k => contains k s) ks.

(** [x in xs] for a list of strings. *)
Definition list_in (x : string) (xs : list string) : bool :=
  existsb (String.eqb x) xs.

(** [sep.join(xs)]. *)
Fixpoint join (sep : string) (xs : list string) : string :=
  match xs with
  | [] => ""
  | [x] => x
  | x :: xs' => x ++ sep ++ join sep xs'
  end.

(** ["c" * n]. *)
Fixpoint repeat_char (c : ascii) (n : nat) : string :=
  match n with
  | O => EmptyString
  | S n' => String c (repeat_char c n')
  end.

(** [s.ljust(w)]. *)
Definition ljust (s : string) (w : nat) : string :=
  s ++ repeat_char " " (w - String.length s).

(** [s[:w]]. *)
Definition take (w : nat) (s : string) : string := substring 0 w s.

(** ["{}".format(n)] for a non-negative integer. *)
Definition str_nat (n : nat) : string := NilZero.string_of_uint (Nat.to_uint n).

(** Insert a comma after every third digit of a reversed digit list. *)
Fixpoint group_rev (l : list ascii) : list ascii :=
  match l with
  | a :: b :: c :: ((_ :: _) as rest) => a :: b :: c :: ","%char :: group_rev rest
  | _ => l
  end.

(** [f"{n:,}"]: decimal with thousands separators. *)
Definition str_commas (n : nat) : string :=
  string_of_list_ascii (rev (group_rev (rev (list_ascii_of_string (str_nat n))))).

(** Dict assignment [d[k] = v]: overwrite in place, or append a new key. *)
Fixpoint dict_set {V} (k : string) (v : V) (d : list (string * V)) : list (string * V) :=
  match d with
  | [] => [(k, v)]
  | (k', v') :: d' => if String.eqb k k' then (k, v) :: d' else (k', v') :: dict_set k v d'
  end.

(** [d.get(k, default)]. *)
Fixpoint dict_get {V} (k : string) (default : V) (d : list (string * V)) : V :=
  match d with
  | [] => default
  | (k', v') :: d' => if String.eqb k k' then v' else dict_get k default d'
  end.

End Py.

Import Py.

(** ** Data model *)

(** One entry of [get_table_schema(..)['columns']]. *)
Record column := mkColumn {
  col_name : string;
  col_type : string;
  col_not_null : bool;
  col_primary_key : bool
}.

(** The successful result of [get_table_schema]. *)
Record table_schema := mkSchema {
  sch_table : string;
  sch_columns : list column;
  sch_row_count : nat;
  sch_indexes : list string
}.

(** The dict built by [_analyze_table_schema]. *)
Record table_analysis := mkAnalysis {
  row_count : nat;
  column_types : list (string * string);
  date_columns : list string;
  numeric_columns : list string;
  text_columns : list string;
  primary_keys : list string;
  has_timestamps : bool;
  likely_relationships : list string
}.

(** A suggested query dict [{'name', 'description', 'sql'}]. *)
Record query := mkQuery {
  q_name : string;
  q_description : string;
  q_sql : string
}.

(** ** [_analyze_table_schema] *)

Definition numeric_type (t : string) : bool :=
  contains "INT" t || contains "REAL" t || contains "FLOAT" t || contains "NUMERIC" t.

Definition text_type (t : string) : bool :=
  contains "TEXT" t || contains "CHAR" t || contains "VARCHAR" t.

Definition date_type (t : string) : bool :=
  contains "DATE" t || contains "TIME" t.

Definition timestamp_keywords : list string := ["created"; "updated"; "modified"; "time"; "date"].
Definition disqualifying_keywords : list string := ["score"; "label"; "amount"; "value"].

(** The name heuristic of the timestamp detection. *)
Definition timestamp_name (name : string) : bool :=
  any_in timestamp_keywords (lower name) && negb (any_in disqualifying_keywords (lower name)).

Definition init_analysis (rc : nat) : table_analysis :=
  mkAnalysis rc [] [] [] [] [] false [].

(** The type-based categorisation of one column (the if/elif chain). *)
Definition categorize (a : table_analysis) (name ty : string) : table_analysis :=
  if numeric_type ty then
    mkAnalysis a.(row_count) a.(column_types) a.(date_columns)
      (a.(numeric_columns) ++ [name]) a.(text_columns) a.(primary_keys)
      a.(has_timestamps) a.(likely_relationships)
  else if text_type ty then
    mkAnalysis a.(row_count) a.(column_types) a.(date_columns)
      a.(numeric_columns) (a.(text_columns) ++ [name]) a.(primary_keys)
      a.(has_timestamps) a.(likely_relationships)
  else if date_type ty then
    mkAnalysis a.(row_count) a.(column_types) (a.(date_columns) ++ [name])
      a.(numeric_columns) a.(text_columns) a.(primary_keys)
      a.(has_timestamps) a.(likely_relationships)
  else a.

(** The timestamp detection of one column. *)
Definition detect_timestamp (a : table_analysis) (name : string) : table_analysis :=
  if timestamp_name name then
    mkAnalysis a.(row_count) a.(column_types)
      (if list_in name a.(date_columns) then a.(date_columns) else a.(date_columns) ++ [name])
      a.(numeric_columns) a.(text_columns) a.(primary_keys)
      true a.(likely_relationships)
  else a.

(** One iteration of the loop over [schema['columns']]. *)
Definition analyze_column (a : table_analysis) (col : column) : table_analysis :=
  let name := col_name col in
  let ty := upper (col_type col) in
  let a1 := mkAnalysis a.(row_count) (dict_set name ty a.(column_types))
              a.(date_columns) a.(numeric_columns) a.(text_columns) a.(primary_keys)
              a.(has_timestamps) a.(likely_relationships) in
  let a2 := if col_primary_key col then
              mkAnalysis a1.(row_count) a1.(column_types) a1.(date_columns)
                a1.(numeric_columns) a1.(text_columns) (a1.(primary_keys) ++ [name])
                a1.(has_timestamps) a1.(likely_relationships)
            else a1 in
  detect_timestamp (categorize a2 name ty) name.

Definition _analyze_table_schema (table_name : string) (schema : table_schema) : table_analysis :=
  fold_left analyze_column (sch_columns schema) (init_analysis (sch_row_count schema)).

(** ** [_generate_table_queries] *)

Definition basic_queries (t : string) (a : table_analysis) : list query :=
  if Nat.ltb 0 a.(row_count) then
    [mkQuery ("sample_" ++ t) ("Sample data from " ++ t) ("SELECT * FROM " ++ t ++ " LIMIT 5");
     mkQuery ("count_" ++ t) ("Total rows in " ++ t)
       ("SELECT COUNT(*) as total_rows FROM " ++ t)]
  else [].

Definition date_queries (t : string) (a : table_analysis) : list query :=
  match a.(date_columns) with
  | [] => []
  | date_col :: _ =>
    [mkQuery ("recent_" ++ t) ("Recent records from " ++ t)
       ("SELECT * FROM " ++ t ++ " ORDER BY " ++ date_col ++ " DESC LIMIT 10");
     mkQuery ("date_range_" ++ t) ("Date range in " ++ t)
       ("SELECT MIN(" ++ date_col ++ ") as earliest, MAX(" ++ date_col ++
        ") as latest FROM " ++ t)]
  end.

Definition stats_query (t c : string) : query :=
  mkQuery ("stats_" ++ t ++ "_" ++ c) ("Statistics for " ++ c ++ " in " ++ t)
    ("SELECT AVG(" ++ c ++ ") as avg_" ++ c ++ ", MIN(" ++ c ++ ") as min_" ++ c ++
     ", MAX(" ++ c ++ ") as max_" ++ c ++ " FROM " ++ t).

Definition numeric_queries (t : string) (a : table_analysis) : list query :=
  concat (map (fun c => if negb (contains "id" (lower c)) then [stats_query t c] else [])
              (firstn 3 a.(numeric_columns))).

Definition popular_query (t c : string) : query :=
  mkQuery ("popular_" ++ c ++ "_" ++ t) ("Most common values in " ++ c)
    ("SELECT " ++ c ++ ", COUNT(*) as frequency FROM " ++ t ++ " GROUP BY " ++ c ++
     " ORDER BY frequency DESC LIMIT 10").

Definition text_queries (t : string) (a : table_analysis) : list query :=
  concat (map (fun c => if any_in ["title"; "name"; "description"; "summary"] (lower c)
                        then [popular_query t c] else [])
              (firstn 2 a.(text_columns))).

Definition _generate_table_queries (t : string) (a : table_analysis) : list query :=
  basic_queries t a ++ date_queries t a ++ numeric_queries t a ++ text_queries t a.

(** ** [_generate_database_insights] *)

(** Stable insertion of [(name, count)] into a list sorted by decreasing
    count, after every entry whose count is not smaller. *)
Fixpoint insert_desc (x : string * nat) (l : list (string * nat)) : list (string * nat) :=
  match l with
  | [] => [x]
  | y :: l' => if Nat.ltb (snd y) (snd x) then x :: y :: l' else y :: insert_desc x l'
  end.

(** [sorted(xs, key=lambda x: x[1], reverse=True)]: stable, so entries with
    equal counts keep their original order. *)
Definition sort_desc (xs : list (string * nat)) : list (string * nat) :=
  fold_left (fun acc x => insert_desc x acc) xs [].

Fixpoint sum_nat (l : list nat) : nat :=
  match l with [] => 0 | x :: l' => x + sum_nat l' end.

(** The candidate relationship edge [table.col -> other]. *)
Record edge := mkEdge {
  from_table : string;
  from_column : string;
  to_table : string
}.

(** The foreign-key naming test against one other table. *)
Definition fk_match (table_name col_name other_table : string) : bool :=
  negb (String.eqb other_table table_name) &&
  (startswith (lower col_name) (lower other_table) ||
   endswith (lower col_name) (lower other_table) ||
   contains (lower other_table) (lower col_name)).

(** The three nested loops over tables, their [column_types] keys and all
    table names. *)
Definition relationship_edges (tables_analysis : list (string * table_analysis)) : list edge :=
  let table_names := map fst tables_analysis in
  concat (map (fun '(table_name, analysis) =>
    concat (map (fun col_name =>
      concat (map (fun other_table =>
        if fk_match table_name col_name other_table
        then [mkEdge table_name col_name other_table] else [])
        table_names))
      (map fst (column_types analysis))))
    tables_analysis).

Definition render_edge (e : edge) : string :=
  from_table e ++ "." ++ from_column e ++ " -> " ++ to_table e.

Definition summary_line (total_tables total_rows : nat) : string :=
  "Database contains " ++ str_nat total_tables ++ " tables with " ++
  str_commas total_rows ++ " total rows".

Definition _generate_database_insights (tables_analysis : list (string * table_analysis))
  : list string :=
  let total_tables := length tables_analysis in
  let total_rows := sum_nat (map (fun '(_, t) => row_count t) tables_analysis) in
  let insights1 := [summary_line total_tables total_rows] in
  let largest_tables :=
    firstn 3 (sort_desc (map (fun '(name, a) => (name, row_count a)) tables_analysis)) in
  let insights2 :=
    match largest_tables with
    | (_, c0) :: _ =>
      if Nat.ltb 0 c0 then
        app insights1 ["Largest tables: " ++
          join ", " (map (fun '(name, count) => name ++ " (" ++ str_commas count ++ " rows)")
                         (filter (fun '(_, count) => Nat.ltb 0 count) largest_tables))]
      else insights1
    | [] => insights1
    end in
  let potential_relationships := map render_edge (relationship_edges tables_analysis) in
  match potential_relationships with
  | [] => insights2
  | _ => app insights2 ["Potential relationships: " ++
                       join ", " (firstn 3 potential_relationships)]
  end.

(** ** [analyze_database_schema] *)

(** The dict returned by [analyze_database_schema]. *)
Record db_analysis := mkDbAnalysis {
  database_path : string;
  tables : list (string * table_analysis);
  suggested_queries : list query;
  insights : list string
}.

(** The database as seen by the analysis: [get_table_names()] (the table
    names, [ORDER BY name], or [[]] when the listing fails) and
    [get_table_schema(t)] ([inl msg] for its [{'error': msg}] result). *)
Record database := mkDatabase {
  db_path : string;
  get_table_names : list string;
  get_table_schema : string -> string + table_schema
}.

(** One iteration of the loop over the tables. *)
Definition analyze_table_step (db : database)
    (acc : list (string * table_analysis) * list query) (table : string)
    : list (string * table_analysis) * list query :=
  let '(tabs, qs) := acc in
  match get_table_schema db table with
  | inl _ => (tabs, qs)
  | inr schema =>
    let table_analysis := _analyze_table_schema table schema in
    (dict_set table table_analysis tabs, app qs (_generate_table_queries table table_analysis))
  end.

Definition analyze_database_schema (db : database) : db_analysis :=
  match get_table_names db with
  | [] => mkDbAnalysis (db_path db) [] [] []
  | tabs =>
    let '(tables_map, qs) := fold_left (analyze_table_step db) tabs ([], []) in
    mkDbAnalysis (db_path db) tables_map qs (_generate_database_insights tables_map)
  end.

(** ** [_format_table_results] *)

(** A result row: the [dict(row)] of a [sqlite3.Row], values already
    passed through [str]. *)
Definition row := list (string * string).

Definition rule_line : string := String "010" (repeat_char "=" 60 ++ String "010" "").

(** [max(len(col), max(len(str(row.get(col, ''))) for row in results[:20]))]
    capped at 30. *)
Definition col_width (results : list row) (col : string) : nat :=
  Nat.min (Nat.max (String.length col)
             (list_max (map (fun r => String.length (dict_get col "" r)) (firstn 20 results))))
          30.

Definition render_cell (results : list row) (r : row) (col : string) : string :=
  ljust (take (col_width results col) (dict_get col "" r)) (col_width results col).

Definition row_cells (results : list row) (columns : list string) (r : row) : list string :=
  map (render_cell results r) columns.

(** The lines appended to [output] for one batch. *)
Definition format_batch (results : list row) : list string :=
  match results with
  | [] => ["No results returned"]
  | r0 :: _ =>
    let columns := map fst r0 in
    let header := join " | " (map (fun col => ljust col (col_width results col)) columns) in
    app [header; repeat_char "-" (String.length header)]
      (app (map (fun r => join " | " (row_cells results columns r)) results)
           [String "010" ("Rows returned: " ++ str_nat (length results))])
  end.

(** The loop [for i, results in enumerate(all_results)]. *)
Fixpoint format_lines (i : nat) (all_results : list (list row)) : list string :=
  match all_results with
  | [] => []
  | results :: rest =>
    app (if Nat.ltb 0 i then [rule_line] else [])
        (app (format_batch results) (format_lines (S i) rest))
  end.

Definition _format_table_results (all_results : list (list row)) : string :=
  join (String "010" "") (format_lines 0 all_results).

(** ** Concrete databases *)

(** [t(id INTEGER PRIMARY KEY, created_at TEXT, score REAL)] with 5 rows. *)
Definition t_schema : table_schema :=
  mkSchema "t" [mkColumn "id" "INTEGER" false true; mkColumn "created_at" "TEXT" false false;
                mkColumn "score" "REAL" false false] 5 [].

Definition t_db : database :=
  mkDatabase "/data/t.db" ["t"]
    (fun name => if String.eqb name "t" then inr t_schema
                 else inl ("Error getting schema for " ++ name ++ ": no such table")).

(** [users(id INTEGER PRIMARY KEY, name TEXT)] and
    [posts(id INTEGER PRIMARY KEY, user_id INTEGER, title TEXT)]. *)
Definition users_schema : table_schema :=
  mkSchema "users" [mkColumn "id" "INTEGER" false true; mkColumn "name" "TEXT" false false] 2 [].

Definition posts_schema : table_schema :=
  mkSchema "posts" [mkColumn "id" "INTEGER" false true; mkColumn "user_id" "INTEGER" false false;
                    mkColumn "title" "TEXT" false false] 3 [].

Definition users_posts_db : database :=
  mkDatabase "/data/blog.db" ["posts"; "users"]
    (fun name => if String.eqb name "users" then inr users_schema
                 else if String.eqb name "posts" then inr posts_schema
                 else inl ("Error getting schema for " ++ name ++ ": no such table")).

(** ** Helper lemmas *)

Lemma list_in_iff (x : string) (xs : list string) : list_in x xs = true <-> In x xs.
Proof.
  unfold list_in. rewrite existsb_exists. split.
  - intros [y [Hy Heq]]. apply String.eqb_eq in Heq. subst. exact Hy.
  - intros H. exists x. split; [exact H | apply String.eqb_refl].
Qed.

(** ** C1 *)

(** C1 (as stated, refuted): the analysis of [t] does not give
    [numeric_columns = ["score"]]: the INTEGER primary key [id] is numeric. *)
Lemma C1_numeric_columns_counterexample :
  ~ (exists a, tables (analyze_database_schema t_db) = [("t", a)] /\
               numeric_columns a = ["score"]).
Proof.
  intros [a [Ht Hn]]. vm_compute in Ht. injection Ht as <-. discriminate Hn.
Qed.

(** C1 (amended): for [t(id INTEGER PRIMARY KEY, created_at TEXT, score REAL)]
    with 5 rows the classification has [numeric_columns = ["id"; "score"]],
    [date_columns = ["created_at"]], and the suggested queries contain
    [sample_t], [count_t], [recent_t], [date_range_t], [stats_t_score] and no
    [stats_t_id]. *)
Theorem C1_t_table_analysis :
  exists a, tables (analyze_database_schema t_db) = [("t", a)] /\
    numeric_columns a = ["id"; "score"] /\ date_columns a = ["created_at"] /\
    Forall (fun n => In n (map q_name (suggested_queries (analyze_database_schema t_db))))
      ["sample_t"; "count_t"; "recent_t"; "date_range_t"; "stats_t_score"] /\
    ~ In "stats_t_id" (map q_name (suggested_queries (analyze_database_schema t_db))).
Proof.
  eexists. split; [vm_compute; reflexivity |].
  split; [reflexivity |]. split; [reflexivity |]. split.
  - repeat (apply Forall_cons; [apply list_in_iff; vm_compute; reflexivity |]).
    apply Forall_nil.
  - rewrite <- list_in_iff. vm_compute. discriminate.
Qed.

(** ** Relationship inference *)

Lemma substring_0_full (s : string) : substring 0 (String.length s) s = s.
Proof. induction s as [| c s IH]; simpl; [reflexivity | now rewrite IH]. Qed.

Lemma substring_split (k : nat) (s : string) :
  k <= String.length s ->
  s = substring 0 k s ++ substring k (String.length s - k) s.
Proof.
  revert k. induction s as [| c s IH]; intros k Hk.
  - simpl in Hk. destruct k; [reflexivity | lia].
  - destruct k as [| k].
    + simpl. now rewrite substring_0_full.
    + simpl in Hk |- *. rewrite <- (IH k) by lia. reflexivity.
Qed.

Lemma startswith_refl (p : string) : startswith p p = true.
Proof. induction p as [| c p IH]; simpl; [reflexivity | now rewrite Ascii.eqb_refl, IH]. Qed.

Lemma contains_suffix (p x : string) : contains p (x ++ p) = true.
Proof.
  induction x as [| c x IH]; simpl.
  - destruct p; simpl; [reflexivity |]. now rewrite Ascii.eqb_refl, startswith_refl.
  - rewrite IH. apply orb_true_r.
Qed.

Lemma endswith_contains (s p : string) : endswith s p = true -> contains p s = true.
Proof.
  unfold endswith. intros H. apply andb_true_iff in H as [Hle Heq].
  apply Nat.leb_le in Hle. apply String.eqb_eq in Heq.
  rewrite (substring_split (String.length s - String.length p) s) by lia.
  replace (String.length s - (String.length s - String.length p)) with (String.length p) by lia.
  rewrite Heq. apply contains_suffix.
Qed.

Lemma startswith_contains (s p : string) : startswith s p = true -> contains p s = true.
Proof. intros H. destruct s; cbn [contains]; rewrite H; reflexivity. Qed.

(** The naming test fires only for another table whose lowercased name
    occurs in the lowercased column name. *)
Lemma fk_match_spec (t c o : string) :
  fk_match t c o = true -> o <> t /\ contains (lower o) (lower c) = true.
Proof.
  unfold fk_match. intros H. apply andb_true_iff in H as [Hne H].
  split.
  - intros ->. now rewrite String.eqb_refl in Hne.
  - apply orb_true_iff in H as [H | H]; [apply orb_true_iff in H as [H | H] |].
    + now apply startswith_contains.
    + now apply endswith_contains.
    + exact H.
Qed.

Lemma in_concat_map_if {A B} (f : A -> bool) (g : A -> B) (x : B) (l : list A) :
  In x (concat (map (fun a => if f a then [g a] else []) l)) ->
  exists a, In a l /\ f a = true /\ x = g a.
Proof.
  intros H. apply in_concat in H as [ys [Hys Hx]]. apply in_map_iff in Hys as [a [<- Ha]].
  exists a. destruct (f a); [| destruct Hx]. destruct Hx as [<- | []]. auto.
Qed.

(** Every emitted edge comes from a table of the map, one of its column
    names, another table of the map, and a successful naming test. *)
Lemma relationship_edges_sound (m : list (string * table_analysis)) (e : edge) :
  In e (relationship_edges m) ->
  exists a, In (from_table e, a) m /\ In (from_column e) (map fst (column_types a)) /\
            In (to_table e) (map fst m) /\
            fk_match (from_table e) (from_column e) (to_table e) = true.
Proof.
  unfold relationship_edges. intros H.
  apply in_concat in H as [es1 [Hes1 He1]]. apply in_map_iff in Hes1 as [[t a] [<- Hta]].
  apply in_concat in He1 as [es2 [Hes2 He2]]. apply in_map_iff in Hes2 as [c [<- Hc]].
  apply (in_concat_map_if (fk_match t c) (mkEdge t c)) in He2 as [o [Ho [Hf ->]]].
  exists a. simpl. auto.
Qed.

(** [posts(id INTEGER PRIMARY KEY, users_id INTEGER)] next to [users]. *)
Definition posts_users_id_schema : table_schema :=
  mkSchema "posts" [mkColumn "id" "INTEGER" false true;
                    mkColumn "users_id" "INTEGER" false false] 3 [].

Definition users_posts_users_id_db : database :=
  mkDatabase "/data/blog2.db" ["posts"; "users"]
    (fun name => if String.eqb name "users" then inr users_schema
                 else if String.eqb name "posts" then inr posts_users_id_schema
                 else inl ("Error getting schema for " ++ name ++ ": no such table")).

(** ** C2 *)

(** C2 (as stated, refuted): for [users] and [posts(id, user_id, title)] the
    inferred edges do not contain [posts.user_id -> users], and no
    relationship insight is produced. *)
Lemma C2_user_id_counterexample :
  ~ In (mkEdge "posts" "user_id" "users")
       (relationship_edges (tables (analyze_database_schema users_posts_db))) /\
  insights (analyze_database_schema users_posts_db) =
    ["Database contains 2 tables with 5 total rows";
     "Largest tables: posts (3 rows), users (2 rows)"].
Proof.
  split; [| vm_compute; reflexivity].
  intros H. apply relationship_edges_sound in H as [a [_ [_ [_ Hf]]]].
  vm_compute in Hf. discriminate Hf.
Qed.

(** C2 (amended): relationship inference never emits [posts.user_id -> users]
    ("user_id" neither starts with, ends with nor contains "users"); an edge
    [posts.c -> users] is emitted only when [users] is a table and the
    lowercased [c] contains "users", as for a column [users_id]. *)
Theorem C2_posts_users_edges :
  (forall m, ~ In (mkEdge "posts" "user_id" "users") (relationship_edges m)) /\
  (forall m c, In (mkEdge "posts" c "users") (relationship_edges m) ->
     In "users" (map fst m) /\ contains "users" (lower c) = true) /\
  In (mkEdge "posts" "users_id" "users")
     (relationship_edges (tables (analyze_database_schema users_posts_users_id_db))).
Proof.
  split; [| split].
  - intros m H. apply relationship_edges_sound in H as [a [_ [_ [_ Hf]]]].
    vm_compute in Hf. discriminate Hf.
  - intros m c H. apply relationship_edges_sound in H as [a [_ [_ [Ho Hf]]]].
    apply fk_match_spec in Hf as [_ Hc]. split; [exact Ho | exact Hc].
  - vm_compute. repeat (first [left; reflexivity | right]).
Qed.

(** ** C6 *)

(** C6: no emitted relationship edge goes from a table to itself. *)
Theorem C6_no_self_edge (m : list (string * table_analysis)) (e : edge) :
  In e (relationship_edges m) -> from_table e <> to_table e.
Proof.
  intros H. apply relationship_edges_sound in H as [a [_ [_ [_ Hf]]]].
  apply fk_match_spec in Hf as [Hne _]. intros Heq. apply Hne. symmetry. exact Heq.
Qed.

Lemma C6_no_self_edge_witness :
  In (mkEdge "posts" "users_id" "users")
     (relationship_edges (tables (analyze_database_schema users_posts_users_id_db))) /\
  "posts" <> "users".
Proof.
  split.
  - vm_compute. repeat (first [left; reflexivity | right]).
  - apply (C6_no_self_edge (tables (analyze_database_schema users_posts_users_id_db))
                           (mkEdge "posts" "users_id" "users")).
    vm_compute. repeat (first [left; reflexivity | right]).
Defined.

(** ** Names of the suggested queries *)

Lemma concat_map_if {A B} (f : A -> bool) (h : A -> B) (l : list A) :
  concat (map (fun c => if f c then [h c] else []) l) = map h (filter f l).
Proof. induction l as [| c l IH]; simpl; [reflexivity |]. destruct (f c); simpl; now rewrite IH. Qed.

Lemma Forall_concat_map_if {A B} (P : B -> Prop) (f : A -> bool) (h : A -> B) (l : list A) :
  (forall c, P (h c)) -> Forall P (concat (map (fun c => if f c then [h c] else []) l)).
Proof. intros HP. rewrite concat_map_if. apply Forall_map, Forall_forall. auto. Qed.

Definition stats_name (t c : string) : string := "stats_" ++ t ++ "_" ++ c.

Definition not_id_column (c : string) : bool := negb (contains "id" (lower c)).

Lemma numeric_queries_eq (t : string) (a : table_analysis) :
  numeric_queries t a = map (stats_query t) (filter not_id_column (firstn 3 (numeric_columns a))).
Proof. apply concat_map_if. Qed.

Lemma stats_names (t : string) (a : table_analysis) :
  filter (fun n => startswith n "stats_") (map q_name (_generate_table_queries t a)) =
  map (stats_name t) (filter not_id_column (firstn 3 (numeric_columns a))).
Proof.
  unfold _generate_table_queries. rewrite !map_app, !filter_app.
  assert (Hb : filter (fun n => startswith n "stats_") (map q_name (basic_queries t a)) = []).
  { unfold basic_queries. destruct (Nat.ltb 0 (row_count a)); reflexivity. }
  assert (Hd : filter (fun n => startswith n "stats_") (map q_name (date_queries t a)) = []).
  { unfold date_queries. destruct (date_columns a); reflexivity. }
  assert (Ht : filter (fun n => startswith n "stats_") (map q_name (text_queries t a)) = []).
  { unfold text_queries. rewrite concat_map_if.
    induction (filter _ (firstn 2 (text_columns a))) as [| c l IH]; [reflexivity |].
    exact IH. }
  rewrite Hb, Hd, Ht, numeric_queries_eq, app_nil_r, !app_nil_l.
  generalize (filter not_id_column (firstn 3 (numeric_columns a))). intros l.
  induction l as [| c l IH]; [reflexivity |].
  cbn [map filter]. rewrite IH. reflexivity.
Qed.

(** [t2(id INTEGER PRIMARY KEY, a REAL, b REAL, c REAL)]. *)
Definition t2_schema : table_schema :=
  mkSchema "t2" [mkColumn "id" "INTEGER" false true; mkColumn "a" "REAL" false false;
                 mkColumn "b" "REAL" false false; mkColumn "c" "REAL" false false] 4 [].

(** ** C3 *)

(** C3 (as stated, refuted): [t2] has three numeric columns without "id",
    but only two [stats_*] candidates are emitted, because the cap of 3 is
    applied to the numeric columns before the "id" filter. *)
Lemma C3_cap_counterexample :
  3 <= length (filter not_id_column (numeric_columns (_analyze_table_schema "t2" t2_schema))) /\
  filter (fun n => startswith n "stats_")
    (map q_name (_generate_table_queries "t2" (_analyze_table_schema "t2" t2_schema)))
  = ["stats_t2_a"; "stats_t2_b"].
Proof. split; vm_compute; [repeat constructor | reflexivity]. Qed.

(** C3 (amended): the [stats_*] candidates are, in column order, one per
    column among the first 3 numeric columns whose lowercased name does not
    contain "id"; the cap counts the numeric columns scanned, not the
    qualifying ones. *)
Theorem C3_stats_candidates (t : string) (a : table_analysis) :
  filter (fun n => startswith n "stats_") (map q_name (_generate_table_queries t a)) =
  map (fun c => "stats_" ++ t ++ "_" ++ c)
      (filter (fun c => negb (contains "id" (lower c))) (firstn 3 (numeric_columns a))).
Proof. apply stats_names. Qed.

(** ** C5 *)

(** C5: without rows no [sample_*] or [count_*] candidate is suggested; with
    rows both [sample_<table>] and [count_<table>] are. *)
Theorem C5_sample_count_gate (t : string) (a : table_analysis) :
  (row_count a = 0 ->
   Forall (fun q => startswith (q_name q) "sample_" = false /\
                    startswith (q_name q) "count_" = false)
          (_generate_table_queries t a)) /\
  (0 < row_count a ->
   In ("sample_" ++ t) (map q_name (_generate_table_queries t a)) /\
   In ("count_" ++ t) (map q_name (_generate_table_queries t a))).
Proof.
  unfold _generate_table_queries, basic_queries. split.
  - intros H0. destruct (Nat.ltb 0 (row_count a)) eqn:E; [rewrite H0 in E; discriminate |].
    rewrite app_nil_l. apply Forall_app. split.
    { unfold date_queries. destruct (date_columns a); [apply Forall_nil |].
      repeat (apply Forall_cons; [split; reflexivity |]). apply Forall_nil. }
    apply Forall_app. split.
    + unfold numeric_queries. apply Forall_concat_map_if. intros c. split; reflexivity.
    + unfold text_queries. apply Forall_concat_map_if. intros c. split; reflexivity.
  - intros Hpos. apply Nat.ltb_lt in Hpos. rewrite Hpos.
    split; [left; reflexivity | right; left; reflexivity].
Qed.

(** The table [t] of [t_schema] without rows: it still gets the recent,
    date range and statistics candidates. *)
Definition t_empty_schema : table_schema :=
  mkSchema "t" (sch_columns t_schema) 0 [].

Lemma C5_sample_count_gate_witness :
  row_count (_analyze_table_schema "t" t_empty_schema) = 0 /\
  map q_name (_generate_table_queries "t" (_analyze_table_schema "t" t_empty_schema)) =
    ["recent_t"; "date_range_t"; "stats_t_score"] /\
  Forall (fun q => startswith (q_name q) "sample_" = false /\
                   startswith (q_name q) "count_" = false)
         (_generate_table_queries "t" (_analyze_table_schema "t" t_empty_schema)) /\
  0 < row_count (_analyze_table_schema "t" t_schema) /\
  In "sample_t" (map q_name (_generate_table_queries "t" (_analyze_table_schema "t" t_schema))).
Proof.
  assert (H0 : row_count (_analyze_table_schema "t" t_empty_schema) = 0)
    by (vm_compute; reflexivity).
  assert (Hpos : 0 < row_count (_analyze_table_schema "t" t_schema)) by (vm_compute; lia).
  split; [exact H0 |]. split; [vm_compute; reflexivity |].
  split; [exact (proj1 (C5_sample_count_gate "t" (_analyze_table_schema "t" t_empty_schema)) H0) |].
  split; [exact Hpos |].
  exact (proj1 (proj2 (C5_sample_count_gate "t" (_analyze_table_schema "t" t_schema)) Hpos)).
Defined.

(** ** C4 *)

Definition empty_db : database :=
  mkDatabase "/data/empty.db" [] (fun name => inl ("Error getting schema for " ++ name)).

Lemma fold_all_failing (db : database) (names : list string)
    (acc : list (string * table_analysis) * list query) :
  (forall t, In t names -> exists e, get_table_schema db t = inl e) ->
  fold_left (analyze_table_step db) names acc = acc.
Proof.
  intros Hf. revert acc. induction names as [| t names IH]; intros [tabs qs]; [reflexivity |].
  simpl. destruct (Hf t (or_introl eq_refl)) as [e He]. rewrite He.
  apply IH. intros u Hu. apply Hf. right. exact Hu.
Qed.

Lemma dict_set_nonnil {V} (k : string) (v : V) (d : list (string * V)) : dict_set k v d <> [].
Proof. destruct d as [| [k' v'] d]; simpl; [discriminate |]. destruct (String.eqb k k'); discriminate. Qed.

(** The per-table map stays empty only while every listed table fails. *)
Lemma fold_tables_nil (db : database) (names : list string)
    (tabs : list (string * table_analysis)) (qs : list query) :
  fst (fold_left (analyze_table_step db) names (tabs, qs)) = [] ->
  tabs = [] /\ forall t, In t names -> exists e, get_table_schema db t = inl e.
Proof.
  revert tabs qs. induction names as [| t names IH]; intros tabs qs H; simpl in H.
  - split; [exact H | intros t []].
  - destruct (get_table_schema db t) as [e | schema] eqn:E.
    + destruct (IH tabs qs H) as [Ht Hall]. split; [exact Ht |].
      intros u [<- | Hu]; [exists e; exact E | exact (Hall u Hu)].
    + destruct (IH _ _ H) as [Ht _]. exfalso. exact (dict_set_nonnil _ _ _ Ht).
Qed.

Lemma digits_no_space (u : Decimal.uint) :
  Forall (fun c => Ascii.eqb c " " = false) (list_ascii_of_string (NilZero.string_of_uint u)).
Proof.
  assert (H : forall d, Forall (fun c => Ascii.eqb c " " = false)
                          (list_ascii_of_string (NilEmpty.string_of_uint d))).
  { induction d; simpl; repeat constructor; assumption. }
  destruct u; [apply Forall_cons; [reflexivity | apply Forall_nil] | ..];
    (apply Forall_cons; [reflexivity | apply H]).
Qed.

Lemma app_space_prefix (a b x y : string) :
  Forall (fun c => Ascii.eqb c " " = false) (list_ascii_of_string a) ->
  Forall (fun c => Ascii.eqb c " " = false) (list_ascii_of_string b) ->
  a ++ String " " x = b ++ String " " y -> a = b.
Proof.
  revert b. induction a as [| c a IH]; intros b Ha Hb H; destruct b as [| d b]; simpl in H.
  - reflexivity.
  - injection H as Hd _. subst d. inversion Hb as [| ? ? Hsp _]. discriminate Hsp.
  - injection H as Hc _. subst c. inversion Ha as [| ? ? Hsp _]. discriminate Hsp.
  - injection H as <- H. inversion Ha; inversion Hb; subst. f_equal. apply IH; assumption.
Qed.

Lemma str_nat_zero (n : nat) : str_nat n = "0" -> n = 0.
Proof.
  unfold str_nat. intros H. rewrite <- (DecimalNat.Unsigned.of_to n).
  destruct (Nat.to_uint n) as [| d | d | d | d | d | d | d | d | d | d];
    try discriminate H; [reflexivity |].
  simpl in H. injection H as H. destruct d; try discriminate H. reflexivity.
Qed.

(** The summary line reports zero tables only for an empty map. *)
Lemma summary_zero (n r : nat) :
  summary_line n r = "Database contains 0 tables with 0 total rows" -> n = 0.
Proof.
  unfold summary_line. cbn [append]. intros H.
  repeat (injection H as H).
  apply str_nat_zero.
  apply (app_space_prefix (str_nat n) "0" ("tables with " ++ str_commas r ++ " total rows")
           "tables with 0 total rows"); [apply digits_no_space | repeat constructor | exact H].
Qed.

Lemma insights_zero_line (m : list (string * table_analysis)) :
  In "Database contains 0 tables with 0 total rows" (_generate_database_insights m) -> m = [].
Proof.
  intros H. apply length_zero_iff_nil. unfold _generate_database_insights in H. cbv zeta in H.
  destruct (firstn 3 _) as [| [n c] l]; [| destruct (Nat.ltb 0 c)];
    destruct (map render_edge (relationship_edges m)); simpl in H;
    repeat (destruct H as [H | H]; [first [discriminate H | exact (summary_zero _ _ H)] |]);
    destruct H.
Qed.

(** C4 (as stated, refuted): the analysis of a database with zero tables
    returns before insight generation, with an empty insights list and no
    summary line. *)
Lemma C4_empty_database_counterexample :
  insights (analyze_database_schema empty_db) = [] /\
  ~ In "Database contains 0 tables with 0 total rows" (insights (analyze_database_schema empty_db)).
Proof. split; [reflexivity | intros []]. Qed.

(** C4 (amended): insight generation is a total function whose first line is
    always the summary "Database contains N tables with R total rows" (for
    an empty per-table map: 0 tables, 0 rows); the analysis of a database
    listing zero tables returns early with an empty insights list, and the
    zero-tables/zero-rows summary appears exactly when tables are listed but
    none of the listed tables can be introspected (the insights are then
    that line alone). *)
Theorem C4_insights_summary :
  (forall m, exists rest, _generate_database_insights m =
     summary_line (length m) (sum_nat (map (fun '(_, t) => row_count t) m)) :: rest) /\
  _generate_database_insights [] = ["Database contains 0 tables with 0 total rows"] /\
  (forall path f, insights (analyze_database_schema (mkDatabase path [] f)) = []) /\
  (forall db, get_table_names db <> [] ->
     (forall t, In t (get_table_names db) -> exists e, get_table_schema db t = inl e) ->
     insights (analyze_database_schema db) = ["Database contains 0 tables with 0 total rows"]) /\
  (forall db, In "Database contains 0 tables with 0 total rows" (insights (analyze_database_schema db)) ->
     get_table_names db <> [] /\
     forall t, In t (get_table_names db) -> exists e, get_table_schema db t = inl e).
Proof.
  split; [| split; [reflexivity | split; [reflexivity |]]].
  - intros m. unfold _generate_database_insights. cbv zeta.
    destruct (firstn 3 _) as [| [n c] l];
      [| destruct (Nat.ltb 0 c)];
      destruct (map render_edge (relationship_edges m)); eexists; reflexivity.
  - split.
    + intros db Hne Hf. unfold analyze_database_schema.
      destruct (get_table_names db) as [| t names]; [contradiction |].
      rewrite (fold_all_failing db (t :: names)) by exact Hf. reflexivity.
    + intros db H. unfold analyze_database_schema in H.
      destruct (get_table_names db) as [| t names]; [destruct H |].
      destruct (fold_left (analyze_table_step db) (t :: names) ([], [])) as [tabs qs] eqn:E.
      apply insights_zero_line in H. cbn [tables] in H. subst tabs.
      split; [discriminate |].
      apply (fold_tables_nil db (t :: names) [] []). rewrite E. reflexivity.
Qed.

(** Schema lookup that fails for [broken] only. *)
Definition broken_lookup (name : string) : string + table_schema :=
  if String.eqb name "broken"
  then inl "Error getting schema for broken: no such table: broken"
  else inr t_schema.

Definition broken_db : database := mkDatabase "/data/broken.db" ["broken"] broken_lookup.

Definition half_broken_db : database := mkDatabase "/data/half.db" ["broken"; "t"] broken_lookup.

Lemma C4_insights_summary_witness :
  insights (analyze_database_schema broken_db) = ["Database contains 0 tables with 0 total rows"] /\
  ~ In "Database contains 0 tables with 0 total rows" (insights (analyze_database_schema half_broken_db)).
Proof.
  split.
  - apply (proj1 (proj2 (proj2 (proj2 C4_insights_summary))) broken_db).
    + discriminate.
    + intros t [<- | []]. eexists. reflexivity.
  - intros H.
    apply (proj2 (proj2 (proj2 (proj2 C4_insights_summary))) half_broken_db) in H as [_ Hall].
    destruct (Hall "t" (or_intror (or_introl eq_refl))) as [e He]. discriminate He.
Defined.

(** ** C7 *)

(** C7: a column whose lowercased name contains "score", "label", "amount"
    or "value" is never flagged by the name heuristic: [has_timestamps] is
    left unchanged and [date_columns] changes only by the type rule. *)
Theorem C7_disqualifier_wins (a : table_analysis) (col : column) :
  any_in disqualifying_keywords (lower (col_name col)) = true ->
  has_timestamps (analyze_column a col) = has_timestamps a /\
  date_columns (analyze_column a col) =
    (let ty := upper (col_type col) in
     if numeric_type ty then date_columns a
     else if text_type ty then date_columns a
     else if date_type ty then app (date_columns a) [col_name col]
     else date_columns a).
Proof.
  intros Hd.
  assert (Hn : timestamp_name (col_name col) = false).
  { unfold timestamp_name. rewrite Hd. apply andb_false_r. }
  unfold analyze_column, detect_timestamp. rewrite Hn. cbv zeta.
  destruct (col_primary_key col); unfold categorize;
    destruct (numeric_type (upper (col_type col)));
    try destruct (text_type (upper (col_type col)));
    try destruct (date_type (upper (col_type col))); split; reflexivity.
Qed.

Lemma C7_disqualifier_wins_witness :
  has_timestamps (analyze_column (init_analysis 0) (mkColumn "time_score" "TEXT" false false))
    = false /\
  date_columns (analyze_column (init_analysis 0) (mkColumn "time_score" "TEXT" false false))
    = [].
Proof.
  destruct (C7_disqualifier_wins (init_analysis 0) (mkColumn "time_score" "TEXT" false false))
    as [H1 H2]; [vm_compute; reflexivity |].
  split; [exact H1 | rewrite H2; vm_compute; reflexivity].
Defined.

(** ** C10 *)

Definition timestamps_inv (a : table_analysis) : Prop :=
  has_timestamps a = true -> date_columns a <> [].

Lemma app_cons_neq_nil {A} (l : list A) (x : A) : app l [x] <> [].
Proof. intros H. apply app_eq_nil in H as [_ H]. discriminate H. Qed.

Lemma categorize_inv (a : table_analysis) (name ty : string) :
  timestamps_inv a -> timestamps_inv (categorize a name ty).
Proof.
  unfold timestamps_inv, categorize. intros H.
  destruct (numeric_type ty); [exact H |].
  destruct (text_type ty); [exact H |].
  destruct (date_type ty); [simpl; intros _; apply app_cons_neq_nil | exact H].
Qed.

Lemma detect_timestamp_inv (a : table_analysis) (name : string) :
  timestamps_inv a -> timestamps_inv (detect_timestamp a name).
Proof.
  unfold timestamps_inv, detect_timestamp. intros H.
  destruct (timestamp_name name); [| exact H].
  simpl. intros _. destruct (list_in name (date_columns a)) eqn:E.
  - apply list_in_iff in E. intros Hnil. rewrite Hnil in E. destruct E.
  - apply app_cons_neq_nil.
Qed.

Lemma analyze_column_inv (a : table_analysis) (col : column) :
  timestamps_inv a -> timestamps_inv (analyze_column a col).
Proof.
  intros H. unfold analyze_column. cbv zeta.
  apply detect_timestamp_inv, categorize_inv.
  destruct (col_primary_key col); exact H.
Qed.

(** C10: whenever the analysis of a table sets [has_timestamps], its
    [date_columns] is non-empty. *)
Theorem C10_timestamps_have_date_column (t : string) (schema : table_schema) :
  has_timestamps (_analyze_table_schema t schema) = true ->
  date_columns (_analyze_table_schema t schema) <> [].
Proof.
  unfold _analyze_table_schema.
  assert (Hinit : timestamps_inv (init_analysis (sch_row_count schema))).
  { intros H. discriminate H. }
  revert Hinit. generalize (init_analysis (sch_row_count schema)).
  induction (sch_columns schema) as [| col cols IH]; intros a Ha; simpl.
  - exact Ha.
  - apply IH, analyze_column_inv, Ha.
Qed.

Lemma C10_timestamps_have_date_column_witness :
  has_timestamps (_analyze_table_schema "t" t_schema) = true /\
  date_columns (_analyze_table_schema "t" t_schema) <> [].
Proof.
  split; [vm_compute; reflexivity |].
  apply C10_timestamps_have_date_column. vm_compute. reflexivity.
Defined.

(** ** C9 *)

(** The tables whose introspection succeeds, in listing order, each with
    its analysis. *)
Definition introspected_tables (db : database) (names : list string)
  : list (string * table_analysis) :=
  flat_map (fun t => match get_table_schema db t with
                     | inr schema => [(t, _analyze_table_schema t schema)]
                     | inl _ => []
                     end) names.

Lemma dict_set_fresh {V} (k : string) (v : V) (d : list (string * V)) :
  ~ In k (map fst d) -> dict_set k v d = app d [(k, v)].
Proof.
  induction d as [| [k' v'] d IH]; intros Hk; [reflexivity |].
  simpl in Hk |- *. destruct (String.eqb k k') eqn:E.
  - apply String.eqb_eq in E. subst. exfalso. apply Hk. left. reflexivity.
  - rewrite IH by tauto. reflexivity.
Qed.

Lemma fold_analyze_tables (db : database) (names : list string)
    (tabs : list (string * table_analysis)) (qs : list query) :
  NoDup names ->
  (forall x, In x (map fst tabs) -> ~ In x names) ->
  fold_left (analyze_table_step db) names (tabs, qs) =
  (app tabs (introspected_tables db names),
   app qs (concat (map (fun '(t, a) => _generate_table_queries t a)
                       (introspected_tables db names)))).
Proof.
  revert tabs qs. induction names as [| t names IH]; intros tabs qs Hnd Hfresh.
  - simpl. rewrite !app_nil_r. reflexivity.
  - inversion Hnd as [| t' names' Ht Hnd']. subst.
    simpl. unfold introspected_tables. simpl.
    destruct (get_table_schema db t) as [e | schema].
    + apply IH; [exact Hnd' |]. intros x Hx Hin. apply (Hfresh x Hx). right. exact Hin.
    + rewrite dict_set_fresh.
      2: { intros Hin. apply (Hfresh t Hin). left. reflexivity. }
      rewrite IH; [| exact Hnd' |].
      * simpl. rewrite <- !app_assoc. reflexivity.
      * intros x Hx Hin. rewrite map_app in Hx. apply in_app_or in Hx as [Hx | [<- | []]].
        -- apply (Hfresh x Hx). right. exact Hin.
        -- exact (Ht Hin).
Qed.

Lemma introspected_tables_ok (db : database) (names : list string) (t : string) :
  In t (map fst (introspected_tables db names)) ->
  exists schema, get_table_schema db t = inr schema.
Proof.
  unfold introspected_tables. intros H. apply in_map_iff in H as [[t' a] [Heq H]].
  simpl in Heq. subst t'. apply in_flat_map in H as [u [_ Hu]].
  destruct (get_table_schema db u) as [e | schema] eqn:E; [destruct Hu |].
  destruct Hu as [Hu | []]. injection Hu as <- _. exists schema. exact E.
Qed.

(** C9: a table whose introspection fails is skipped: the per-table map is
    exactly the successfully introspected tables with their analyses, the
    suggested queries are exactly theirs, and the failing table is absent. *)
Theorem C9_failing_table_skipped (db : database) :
  NoDup (get_table_names db) ->
  tables (analyze_database_schema db) = introspected_tables db (get_table_names db) /\
  suggested_queries (analyze_database_schema db) =
    concat (map (fun '(t, a) => _generate_table_queries t a)
                (introspected_tables db (get_table_names db))) /\
  (forall t e, get_table_schema db t = inl e ->
     ~ In t (map fst (tables (analyze_database_schema db)))).
Proof.
  intros Hnd.
  assert (Htabs : tables (analyze_database_schema db) =
                  introspected_tables db (get_table_names db) /\
                  suggested_queries (analyze_database_schema db) =
                  concat (map (fun '(t, a) => _generate_table_queries t a)
                              (introspected_tables db (get_table_names db)))).
  { unfold analyze_database_schema.
    destruct (get_table_names db) as [| n ns] eqn:E; [split; reflexivity |].
    rewrite fold_analyze_tables; [split; reflexivity | exact Hnd | intros x []]. }
  destruct Htabs as [Ht Hq]. split; [exact Ht | split; [exact Hq |]].
  intros t e He Hin. rewrite Ht in Hin.
  apply introspected_tables_ok in Hin as [schema Hs]. congruence.
Qed.

(** [bad] cannot be introspected, [t] can. *)
Definition partly_broken_db : database :=
  mkDatabase "/data/partly.db" ["bad"; "t"]
    (fun name => if String.eqb name "t" then inr t_schema
                 else inl ("Error getting schema for " ++ name ++ ": no such table: " ++ name)).

Lemma C9_failing_table_skipped_witness :
  ~ In "bad" (map fst (tables (analyze_database_schema partly_broken_db))) /\
  map fst (tables (analyze_database_schema partly_broken_db)) = ["t"].
Proof.
  assert (Hnd : NoDup (get_table_names partly_broken_db)).
  { simpl. constructor; [intros [H | []]; discriminate H |].
    constructor; [intros [] | constructor]. }
  destruct (C9_failing_table_skipped partly_broken_db Hnd) as [Ht [_ Hbad]].
  split.
  - apply (Hbad "bad" ("Error getting schema for bad: no such table: bad")). reflexivity.
  - rewrite Ht. reflexivity.
Defined.

(** ** C8 *)

Lemma length_append (s1 s2 : string) :
  String.length (s1 ++ s2) = String.length s1 + String.length s2.
Proof. induction s1 as [| c s1 IH]; simpl; [reflexivity | now rewrite IH]. Qed.

Lemma length_repeat_char (c : ascii) (n : nat) : String.length (repeat_char c n) = n.
Proof. induction n as [| n IH]; simpl; [reflexivity | now rewrite IH]. Qed.

Lemma append_empty_r (s : string) : s ++ "" = s.
Proof. induction s as [| c s IH]; simpl; [reflexivity | now rewrite IH]. Qed.

Lemma length_take (w : nat) (s : string) :
  String.length (take w s) = Nat.min w (String.length s).
Proof.
  unfold take. revert w. induction s as [| c s IH]; intros [| w]; simpl; try reflexivity.
  now rewrite IH.
Qed.

Lemma render_cell_length (results : list row) (r : row) (col : string) :
  String.length (render_cell results r col) = col_width results col.
Proof.
  unfold render_cell, ljust. rewrite length_append, length_repeat_char, length_take. lia.
Qed.

Lemma render_cell_truncated (results : list row) (r : row) (col : string) :
  col_width results col <= String.length (dict_get col "" r) ->
  render_cell results r col = take (col_width results col) (dict_get col "" r).
Proof.
  intros H. unfold render_cell, ljust. rewrite length_take.
  replace (col_width results col - Nat.min (col_width results col)
                                           (String.length (dict_get col "" r))) with 0 by lia.
  apply append_empty_r.
Qed.

Lemma format_lines_later (i : nat) (bs : list (list row)) :
  format_lines (S i) bs = concat (map (fun b => rule_line :: format_batch b) bs).
Proof.
  revert i. induction bs as [| b bs IH]; intros i; [reflexivity |].
  simpl. rewrite IH. reflexivity.
Qed.

(** C8: in the text rendering, consecutive batches are separated by the rule
    line; every non-empty batch ends with the line "Rows returned: N"
    (preceded by a newline) for its full length N and contains a line per row;
    the width of each column is min(30, max(header length, longest value among
    the first 20 rows)), each cell has exactly that width, and a value at
    least that long is cut to its first [width] characters. *)
Theorem C8_text_rendering (all_results : list (list row)) :
  _format_table_results all_results = join (String "010" "") (format_lines 0 all_results) /\
  format_lines 0 all_results =
    match all_results with
    | [] => []
    | b :: bs => app (format_batch b) (concat (map (fun b' => rule_line :: format_batch b') bs))
    end /\
  (forall b, In b all_results -> b <> [] ->
     (exists pre, format_batch b =
        app pre [String "010" ("Rows returned: " ++ str_nat (length b))]) /\
     (forall r, In r b ->
        In (join " | " (map (render_cell b r) (map fst (hd [] b)))) (format_batch b)) /\
     (forall r col,
        col_width b col =
          Nat.min 30 (Nat.max (String.length col)
            (list_max (map (fun r' => String.length (dict_get col "" r')) (firstn 20 b)))) /\
        String.length (render_cell b r col) = col_width b col /\
        (col_width b col <= String.length (dict_get col "" r) ->
         render_cell b r col = take (col_width b col) (dict_get col "" r)))).
Proof.
  split; [reflexivity | split].
  - destruct all_results as [| b bs]; [reflexivity |].
    simpl. rewrite format_lines_later. reflexivity.
  - intros b _ Hne. destruct b as [| r0 rs]; [contradiction |]. split; [| split].
    + eexists. unfold format_batch. cbv beta iota zeta. rewrite app_assoc. reflexivity.
    + intros r Hr. unfold format_batch. cbv beta iota zeta. cbn [hd].
      apply in_or_app. right. apply in_or_app. left.
      apply in_map_iff. exists r. split; [reflexivity | exact Hr].
    + intros r col. split; [| split].
      * unfold col_width. apply Nat.min_comm.
      * apply render_cell_length.
      * apply render_cell_truncated.
Qed.

(** The batches [[{a: "x", b: "1"}], []]. *)
Definition two_batches : list (list row) := [[[("a", "x"); ("b", "1")]]; []].

Lemma C8_text_rendering_witness :
  _format_table_results two_batches =
    "a | b" ++ String "010" ("-----" ++ String "010" ("x | 1" ++ String "010" (
    String "010" ("Rows returned: 1" ++ String "010" (rule_line ++ String "010"
    "No results returned"))))) /\
  String.length (render_cell [[("a", "x"); ("b", "1")]] [("a", "x"); ("b", "1")] "a") = 1.
Proof.
  split; [vm_compute; reflexivity |].
  destruct (proj2 (proj2 (C8_text_rendering two_batches))
              [[("a", "x"); ("b", "1")]] (or_introl eq_refl) ltac:(discriminate))
    as [_ [_ Hcell]].
  destruct (Hcell [("a", "x"); ("b", "1")] "a") as [_ [Hlen _]].
  rewrite Hlen. vm_compute. reflexivity.
Defined.

(** * Further parts of [query_db_direct.py] *)

(** ** Splitting SQL text into statements *)

Module PyStr.

(** [c.isspace()] for the code points 0..255 of a Python [str]. *)
Definition is_space (c : ascii) : bool :=
  let n := nat_of_ascii c in
  (Nat.leb 9 n && Nat.leb n 13) || (Nat.leb 28 n && Nat.leb n 32) ||
  Nat.eqb n 133 || Nat.eqb n 160.

Fixpoint lstrip (s : string) : string :=
  match s with
  | EmptyString => EmptyString
  | String c s' => if is_space c then lstrip s' else s
  end.

Fixpoint rstrip (s : string) : string :=
  match s with
  | EmptyString => EmptyString
  | String c s' =>
    match rstrip s' with
    | EmptyString => if is_space c then EmptyString else String c EmptyString
    | r => String c r
    end
  end.

(** [s.strip()]. *)
Definition strip (s : string) : string := rstrip (lstrip s).

(** [s.split(';')]: the pieces between the semicolons, always at least one. *)
Fixpoint split_semicolons (s : string) : list string :=
  match s with
  | EmptyString => [EmptyString]
  | String c s' =>
    let rest := split_semicolons s' in
    if Ascii.eqb c ";" then EmptyString :: rest
    else match rest with
         | x :: r => String c x :: r
         | [] => [String c EmptyString]
         end
  end.

Definition nonempty (s : string) : bool :=
  match s with EmptyString => false | _ => true end.

End PyStr.

Import PyStr.

(** [[stmt.strip() for stmt in sql.split(';') if stmt.strip()]]: the
    statement list of [execute_raw_sql], and the query list that [main]
    builds from [--multi]. *)
Definition split_statements (sql : string) : list string :=
  filter nonempty (map strip (split_semicolons sql)).

Lemma split_semicolons_nonnil (s : string) : split_semicolons s <> [].
Proof.
  destruct s as [| c s]; simpl; [discriminate |].
  destruct (Ascii.eqb c ";"); [discriminate |]. destruct (split_semicolons s); discriminate.
Qed.

Lemma split_semicolons_spec (s : string) :
  join ";" (split_semicolons s) = s /\
  Forall (fun x => contains ";" x = false) (split_semicolons s).
Proof.
  induction s as [| c s IH]; [split; [reflexivity | repeat constructor] |].
  destruct IH as [IHj IHf]. simpl. destruct (Ascii.eqb c ";") eqn:E.
  - apply Ascii.eqb_eq in E. subst c. split; [| constructor; [reflexivity | exact IHf]].
    destruct (split_semicolons s) as [| x r] eqn:Es;
      [exfalso; exact (split_semicolons_nonnil s Es) |].
    simpl. rewrite <- IHj. reflexivity.
  - destruct (split_semicolons s) as [| x r] eqn:Es;
      [exfalso; exact (split_semicolons_nonnil s Es) |].
    apply Forall_cons_iff in IHf as [Hx Hr]. split.
    + destruct r as [| y r]; simpl in IHj |- *; rewrite <- IHj; reflexivity.
    + constructor; [| exact Hr]. cbn [contains startswith].
      rewrite Hx, Ascii.eqb_sym, E. reflexivity.
Qed.

(** X1: [sql.split(';')] round-trips: its pieces contain no semicolon and
    joining them with [";"] gives back the text. *)
Theorem split_semicolons_roundtrip (s : string) :
  join ";" (split_semicolons s) = s /\
  Forall (fun x => contains ";" x = false) (split_semicolons s).
Proof. exact (split_semicolons_spec s). Qed.

Lemma lstrip_idem (s : string) : lstrip (lstrip s) = lstrip s.
Proof.
  induction s as [| c s IH]; [reflexivity |]. simpl.
  destruct (is_space c) eqn:E; [exact IH | simpl; rewrite E; reflexivity].
Qed.

Lemma rstrip_cons (c : ascii) (s : string) :
  rstrip (String c s) =
  match rstrip s with
  | EmptyString => if is_space c then EmptyString else String c EmptyString
  | r => String c r
  end.
Proof. reflexivity. Qed.

Lemma rstrip_idem (s : string) : rstrip (rstrip s) = rstrip s.
Proof.
  induction s as [| c s IH]; [reflexivity |]. rewrite rstrip_cons.
  destruct (rstrip s) as [| d r] eqn:E.
  - destruct (is_space c) eqn:Ec; [reflexivity |]. simpl. rewrite Ec. reflexivity.
  - rewrite rstrip_cons, IH. reflexivity.
Qed.

Lemma lstrip_rstrip (t : string) : lstrip t = t -> lstrip (rstrip t) = rstrip t.
Proof.
  destruct t as [| c t]; [reflexivity |]. simpl. intros H.
  destruct (is_space c) eqn:Ec.
  - exfalso. assert (Hl : String.length (lstrip t) <= String.length t).
    { clear H. induction t as [| d t IH]; simpl; [lia |]. destruct (is_space d); simpl; lia. }
    rewrite H in Hl. simpl in Hl. lia.
  - destruct (rstrip t); simpl; rewrite Ec; reflexivity.
Qed.

(** [s.strip()] is idempotent. *)
Lemma strip_idem (s : string) : strip (strip s) = strip s.
Proof.
  unfold strip. rewrite lstrip_rstrip by apply lstrip_idem. apply rstrip_idem.
Qed.

Lemma startswith_app (s t p : string) : startswith s p = true -> startswith (s ++ t) p = true.
Proof.
  revert s. induction p as [| c p IH]; intros s H; [reflexivity |].
  destruct s as [| d s]; [discriminate H |]. simpl in H |- *.
  apply andb_true_iff in H as [H1 H2]. rewrite H1, (IH s H2). reflexivity.
Qed.

Lemma contains_app_r (p s t : string) : contains p s = true -> contains p (s ++ t) = true.
Proof.
  induction s as [| c s IH]; intros H.
  - destruct p; [destruct t; reflexivity | discriminate H].
  - simpl in H |- *. apply orb_true_iff in H as [H | H].
    + apply orb_true_iff. left. exact (startswith_app (String c s) t p H).
    + rewrite (IH H). apply orb_true_r.
Qed.

Lemma contains_app_l (p s t : string) : contains p t = true -> contains p (s ++ t) = true.
Proof.
  induction s as [| c s IH]; intros H; [exact H |]. simpl. rewrite (IH H). apply orb_true_r.
Qed.

Lemma lstrip_suffix (s : string) : exists a, s = a ++ lstrip s.
Proof.
  induction s as [| c s [a Ha]]; [exists ""; reflexivity |]. simpl.
  destruct (is_space c); [exists (String c a); simpl; rewrite <- Ha; reflexivity |].
  exists ""; reflexivity.
Qed.

Lemma rstrip_prefix (s : string) : exists b, s = rstrip s ++ b.
Proof.
  induction s as [| c s [b Hb]]; [exists ""; reflexivity |]. simpl.
  destruct (rstrip s) as [| d r] eqn:E.
  - destruct (is_space c); [exists (String c s); reflexivity |].
    exists s. reflexivity.
  - exists b. simpl. f_equal. exact Hb.
Qed.

Lemma contains_strip (p s : string) : contains p s = false -> contains p (strip s) = false.
Proof.
  intros H. destruct (contains p (strip s)) eqn:E; [| reflexivity].
  exfalso. unfold strip in E.
  destruct (rstrip_prefix (lstrip s)) as [b Hb]. destruct (lstrip_suffix s) as [a Ha].
  apply (contains_app_r p _ b) in E. rewrite <- Hb in E.
  apply (contains_app_l p a) in E. rewrite <- Ha in E. congruence.
Qed.

Lemma split_statements_spec (sql : string) :
  Forall (fun stmt => stmt <> "" /\ strip stmt = stmt /\ contains ";" stmt = false)
         (split_statements sql).
Proof.
  unfold split_statements. apply Forall_forall. intros x Hx.
  apply filter_In in Hx as [Hx Hne]. apply in_map_iff in Hx as [y [<- Hy]].
  split; [destruct (strip y); [discriminate Hne | discriminate] |]. split.
  - apply strip_idem.
  - apply contains_strip. destruct (split_semicolons_spec sql) as [_ Hf].
    rewrite Forall_forall in Hf. exact (Hf y Hy).
Qed.

(** X2: every statement that [execute_raw_sql] runs (and every query that
    [main] takes from [--multi]) is non-empty, already stripped of
    surrounding whitespace and free of semicolons; blank pieces are dropped. *)
Theorem split_statements_clean (sql : string) :
  Forall (fun stmt => stmt <> "" /\ strip stmt = stmt /\ contains ";" stmt = false)
         (split_statements sql).
Proof. exact (split_statements_spec sql). Qed.

(** ** [execute_raw_sql] and [execute_multi_query] *)

(** The [output_format] argument: ['table'], ['json'] or any other value. *)
Inductive out_format := FmtTable | FmtJson | FmtOther.

(** The value [execute_raw_sql] returns: a string, or (for another output
    format) the list of result batches itself. *)
Inductive raw_output := RawText (s : string) | RawRows (rs : list (list row)).

Section RawSql.

(** The database state, seen through one [sqlite3] connection. *)
Variable St : Type.
(** [sqlite3.connect(self.db_path)]: [Some (str(e))] when it raises. *)
Variable connect_error : St -> option string.
(** [cursor.execute(stmt); cursor.fetchall()] as dicts: [inl (str(e))]
    when it raises, otherwise the new state and the rows. *)
Variable run_statement : St -> string -> string + (St * list row).
(** Leaving the [with] block after an exception (the connection's
    rollback). *)
Variable after_failure : St -> St.
(** Leaving the [with] block normally: [conn.commit()], [inl (str(e))]
    when it raises (the connection then rolls back and re-raises). *)
Variable commit : St -> string + St.
(** [self.get_table_names()]. *)
Variable list_tables : St -> list string.
(** [json.dumps(all_results, indent=2, default=str)],
    [json.dumps({"error": error_msg})] and
    [json.dumps(all_outputs, indent=2, default=str)]. *)
Variable dumps_results : list (list row) -> string.
Variable dumps_error : string -> string.
Variable dumps_outputs : list string -> string.

(** The loop [for stmt in statements] with its first exception. *)
Fixpoint run_statements (st : St) (stmts : list string)
  : (St * string) + (St * list (list row)) :=
  match stmts with
  | [] => inr (st, [])
  | stmt :: rest =>
    match run_statement st stmt with
    | inl e => inl (st, e)
    | inr (st', rows) =>
      match run_statements st' rest with
      | inl err => inl err
      | inr (st'', all_results) => inr (st'', rows :: all_results)
      end
    end
  end.

(** The message built in the [except] branch. *)
Definition sql_error_message (st : St) (e : string) : string :=
  let error_msg := "SQL Error: " ++ e in
  if contains "no such table" (lower e) then
    error_msg ++ String "010" ("Available tables: " ++ join ", " (list_tables st))
  else if contains "no such column" (lower e) then
    error_msg ++ String "010" "Tip: Use --schema <table> to see available columns"
  else error_msg.

(** [execute_raw_sql]: the statements run inside [with sqlite3.connect(..)];
    an exception from [connect], from a statement or from the commit on
    leaving the block reaches the [except] branch (after the rollback when
    the connection was open). The result is rendered inside the block,
    before the commit. *)
Definition execute_raw_sql (st : St) (sql : string) (output_format : out_format)
  : St * raw_output :=
  let failure (st_fail : St) (e : string) :=
    let error_msg := sql_error_message st_fail e in
    (st_fail, match output_format with
              | FmtJson => RawText (dumps_error error_msg)
              | _ => RawText error_msg
              end) in
  match connect_error st with
  | Some e => failure st e
  | None =>
    match run_statements st (split_statements sql) with
    | inl (st_fail, e) => failure (after_failure st_fail) e
    | inr (st1, all_results) =>
      let result := match output_format with
                    | FmtJson => RawText (dumps_results all_results)
                    | FmtTable => RawText (_format_table_results all_results)
                    | FmtOther => RawRows all_results
                    end in
      match commit st1 with
      | inl e => failure (after_failure st1) e
      | inr st2 => (st2, result)
      end
    end
  end.

(** The loop of [execute_multi_query] over [enumerate(queries)], with
    [n = len(queries)]. *)
Fixpoint multi_loop (st : St) (output_format : out_format) (n i : nat) (queries : list string)
  : St * list raw_output :=
  match queries with
  | [] => (st, [])
  | q0 :: rest =>
    let query := strip q0 in
    if negb (nonempty query) then multi_loop st output_format n (S i) rest
    else
      let header :=
        match output_format with
        | FmtTable => [RawText ("Query " ++ str_nat (S i) ++ ": " ++ query);
                       RawText (repeat_char "-" 40)]
        | _ => []
        end in
      let '(st1, result) := execute_raw_sql st query output_format in
      let sep :=
        match output_format with
        | FmtTable => if Nat.ltb i (n - 1) then [RawText rule_line] else []
        | _ => []
        end in
      let '(st2, outputs) := multi_loop st1 output_format n (S i) rest in
      (st2, app header (result :: app sep outputs))
  end.

(** The strings of [all_outputs], or [None] when one of them is a list
    (on which ["\n".join] raises [TypeError]). *)
Fixpoint all_texts (outs : list raw_output) : option (list string) :=
  match outs with
  | [] => Some []
  | RawText s :: rest => option_map (cons s) (all_texts rest)
  | RawRows _ :: _ => None
  end.

Definition execute_multi_query (st : St) (queries : list string) (output_format : out_format)
  : St * option string :=
  let '(st', all_outputs) := multi_loop st output_format (length queries) 0 queries in
  (st', match output_format, all_texts all_outputs with
        | FmtJson, Some outs => Some (dumps_outputs outs)
        | _, Some outs => Some (join (String "010" "") outs)
        | _, None => None
        end).

(** [main] with [--multi]: [if args.multi:], then the queries split on
    semicolons are run. [None] when the branch is not taken (the option
    is absent or empty) and [main] goes on with its other options. *)
Definition main_multi (st : St) (multi : option string) (output_format : out_format)
  : option (St * option string) :=
  match multi with
  | Some m =>
    if String.eqb m "" then None
    else Some (execute_multi_query st (split_statements m) output_format)
  | None => None
  end.

(** Running the given queries one after the other through [execute_raw_sql]. *)
Fixpoint run_queries (st : St) (output_format : out_format) (queries : list string)
  : St * list raw_output :=
  match queries with
  | [] => (st, [])
  | q :: rest =>
    let '(st1, r) := execute_raw_sql st q output_format in
    let '(st2, rs) := run_queries st1 output_format rest in
    (st2, r :: rs)
  end.

End RawSql.

Arguments run_statements {St} run_statement st stmts.
Arguments sql_error_message {St} list_tables st e.

Section RawSqlFacts.

Variable St : Type.
Variable connect_error : St -> option string.
Variable run_statement : St -> string -> string + (St * list row).
Variable after_failure : St -> St.
Variable commit : St -> string + St.
Variable list_tables : St -> list string.
Variable dumps_results : list (list row) -> string.
Variable dumps_error : string -> string.
Variable dumps_outputs : list string -> string.

Local Abbreviation raw :=
  (execute_raw_sql St connect_error run_statement after_failure commit list_tables
     dumps_results dumps_error).
Local Abbreviation loop :=
  (multi_loop St connect_error run_statement after_failure commit list_tables
     dumps_results dumps_error).
Local Abbreviation run_all :=
  (run_queries St connect_error run_statement after_failure commit list_tables
     dumps_results dumps_error).
Local Abbreviation multi :=
  (execute_multi_query St connect_error run_statement after_failure commit list_tables
     dumps_results dumps_error dumps_outputs).
Local Abbreviation main_m :=
  (main_multi St connect_error run_statement after_failure commit list_tables
     dumps_results dumps_error dumps_outputs).

Lemma run_statements_app (st st1 : St) (ss1 ss2 : list string) (rs1 : list (list row)) :
  run_statements run_statement st ss1 = inr (st1, rs1) ->
  run_statements run_statement st (app ss1 ss2) =
    match run_statements run_statement st1 ss2 with
    | inl err => inl err
    | inr (st2, rs2) => inr (st2, app rs1 rs2)
    end.
Proof.
  revert st rs1. induction ss1 as [| s ss1 IH]; intros st rs1 H.
  - simpl in H. injection H as <- <-. simpl.
    destruct (run_statements run_statement st ss2) as [err | [st2 rs2]]; reflexivity.
  - simpl in H |- *. destruct (run_statement st s) as [e | [st' rows]]; [discriminate H |].
    destruct (run_statements run_statement st' ss1) as [err | [st'' rs']] eqn:E;
      [discriminate H |].
    injection H as -> <-. rewrite (IH st' rs' E).
    destruct (run_statements run_statement st1 ss2) as [err | [st2 rs2]]; reflexivity.
Qed.

(** X3: [execute_raw_sql] stops at the first failing statement: the
    statements after it are never run, the state is the rollback of the
    state reached before it, and the text output is ["SQL Error: " ++ e]
    with the table list (for "no such table") or the column tip (for
    "no such column"). *)
Theorem execute_raw_sql_first_error (st st1 : St) (sql bad e : string)
    (ss1 ss2 : list string) (rs1 : list (list row)) :
  connect_error st = None ->
  split_statements sql = app ss1 (bad :: ss2) ->
  run_statements run_statement st ss1 = inr (st1, rs1) ->
  run_statement st1 bad = inl e ->
  raw st sql FmtTable =
    (after_failure st1,
     RawText (let msg := "SQL Error: " ++ e in
              if contains "no such table" (lower e) then
                msg ++ String "010" ("Available tables: " ++
                                     join ", " (list_tables (after_failure st1)))
              else if contains "no such column" (lower e) then
                msg ++ String "010" "Tip: Use --schema <table> to see available columns"
              else msg)).
Proof.
  intros Hc Hs H1 Hbad. unfold execute_raw_sql. rewrite Hc, Hs.
  rewrite (run_statements_app st st1 ss1 (bad :: ss2) rs1 H1). simpl. rewrite Hbad.
  reflexivity.
Qed.

(** X5: blank queries given to [execute_multi_query] are skipped without
    being executed: the final state is that of running only the stripped
    non-blank queries, in order; in JSON mode the collected outputs are
    exactly their results, without headers or separators. *)
Theorem multi_loop_skips_blank (st : St) (output_format : out_format) (n i : nat)
    (queries : list string) :
  fst (loop st output_format n i queries) =
    fst (run_all st output_format (filter nonempty (map strip queries))) /\
  loop st FmtJson n i queries = run_all st FmtJson (filter nonempty (map strip queries)).
Proof.
  revert st i. induction queries as [| q qs IH]; intros st i; [split; reflexivity |].
  simpl. destruct (nonempty (strip q)) eqn:E; simpl; [| apply IH].
  split.
  - destruct (raw st (strip q) output_format) as [st1 r].
    destruct (loop st1 output_format n (S i) qs) as [st2 outs] eqn:El.
    destruct (run_all st1 output_format (filter nonempty (map strip qs))) as [st3 rs3] eqn:Er.
    simpl. destruct (IH st1 (S i)) as [H _]. rewrite El, Er in H. exact H.
  - destruct (raw st (strip q) FmtJson) as [st1 r].
    destruct (IH st1 (S i)) as [_ H]. rewrite H. reflexivity.
Qed.

(** The lines [main --multi] prints in table mode for the queries [qs],
    numbered from [i + 1], given their result texts. *)
Fixpoint multi_table_lines (n i : nat) (qs texts : list string) : list string :=
  match qs, texts with
  | q :: qs', t :: texts' =>
    app ["Query " ++ str_nat (S i) ++ ": " ++ q; repeat_char "-" 40; t]
        (app (if Nat.ltb i (n - 1) then [rule_line] else [])
             (multi_table_lines n (S i) qs' texts'))
  | _, _ => []
  end.

Definition text_of (r : raw_output) : string :=
  match r with RawText s => s | RawRows _ => "" end.

Lemma raw_table_text (st : St) (q : string) :
  exists t, snd (raw st q FmtTable) = RawText t.
Proof.
  unfold execute_raw_sql.
  destruct (connect_error st) as [e |]; [eexists; reflexivity |].
  destruct (run_statements run_statement st (split_statements q)) as [[st_fail e] | [st1 rs]];
    [eexists; reflexivity |].
  destruct (commit st1); eexists; reflexivity.
Qed.

Lemma all_texts_map (l : list string) : all_texts (map RawText l) = Some l.
Proof. induction l as [| x l IH]; simpl; [reflexivity | now rewrite IH]. Qed.

Lemma loop_table_clean (st : St) (n i : nat) (qs : list string) :
  Forall (fun q => strip q = q /\ nonempty q = true) qs ->
  loop st FmtTable n i qs =
    (fst (run_all st FmtTable qs),
     map RawText (multi_table_lines n i qs (map text_of (snd (run_all st FmtTable qs))))).
Proof.
  revert st i. induction qs as [| q qs IH]; intros st i Hc; [reflexivity |].
  apply Forall_cons_iff in Hc as [[Hs Hn] Hc]. simpl. rewrite Hs, Hn. simpl.
  destruct (raw_table_text st q) as [t Ht].
  destruct (raw st q FmtTable) as [st1 r] eqn:Er. simpl in Ht. subst r.
  rewrite (IH st1 (S i) Hc).
  destruct (run_all st1 FmtTable qs) as [st2 rs] eqn:Ea. simpl.
  rewrite map_app. destruct (Nat.ltb i (n - 1)); reflexivity.
Qed.

(** X6: [main --multi s] with a non-empty [s] prints, in table mode, for
    the k queries split from [s], the blocks "Query j: q" / 40 dashes /
    result for j = 1..k, consecutively numbered, with the rule line
    between two blocks and none after the last; the queries run in order,
    threading the database state. *)
Theorem main_multi_table (st : St) (s : string) :
  s <> "" ->
  main_m st (Some s) FmtTable =
    Some (fst (run_all st FmtTable (split_statements s)),
          Some (join (String "010" "")
                  (multi_table_lines (length (split_statements s)) 0 (split_statements s)
                     (map text_of (snd (run_all st FmtTable (split_statements s))))))).
Proof.
  intros Hs. unfold main_multi.
  destruct (String.eqb s "") eqn:E; [apply String.eqb_eq in E; contradiction |].
  f_equal. unfold execute_multi_query.
  rewrite loop_table_clean.
  - simpl. rewrite all_texts_map. reflexivity.
  - eapply Forall_impl; [| apply split_statements_spec].
    intros q [Hne [Hq _]]. split; [exact Hq |]. destruct q; [contradiction | reflexivity].
Qed.

End RawSqlFacts.

(** A toy backend for the examples: the state counts the statements run so
    far; a statement starting with SELECT returns one row holding the
    count, any other statement fails with "no such table"; the commit
    succeeds and the rollback returns to the empty state. *)
Definition demo_connect (n : nat) : option string := None.

Definition demo_run (n : nat) (stmt : string) : string + (nat * list row) :=
  if startswith stmt "SELECT" then inr (S n, [[("n", str_nat n)]])
  else inl ("no such table: " ++ stmt).

Definition demo_rollback (n : nat) : nat := 0.

Definition demo_commit (n : nat) : string + nat := inr n.

Definition demo_tables (n : nat) : list string := ["t"; "u"].

Definition demo_dumps_results (rs : list (list row)) : string := "[]".

Definition demo_dumps_error (msg : string) : string := msg.

Definition demo_dumps_outputs (outs : list string) : string := "[]".

Lemma execute_raw_sql_first_error_witness :
  demo_connect 0 = None /\
  split_statements "SELECT 1; SELECT 2;; FOO ; SELECT 3" =
    app ["SELECT 1"; "SELECT 2"] ("FOO" :: ["SELECT 3"]) /\
  run_statements demo_run 0 ["SELECT 1"; "SELECT 2"] =
    inr (2, [[[("n", "0")]]; [[("n", "1")]]]) /\
  demo_run 2 "FOO" = inl "no such table: FOO" /\
  execute_raw_sql nat demo_connect demo_run demo_rollback demo_commit demo_tables
    demo_dumps_results demo_dumps_error 0 "SELECT 1; SELECT 2;; FOO ; SELECT 3" FmtTable =
    (demo_rollback 2,
     RawText (let msg := "SQL Error: " ++ "no such table: FOO" in
              if contains "no such table" (lower "no such table: FOO") then
                msg ++ String "010" ("Available tables: " ++
                                     join ", " (demo_tables (demo_rollback 2)))
              else if contains "no such column" (lower "no such table: FOO") then
                msg ++ String "010" "Tip: Use --schema <table> to see available columns"
              else msg)).
Proof.
  assert (H1 : demo_connect 0 = None) by reflexivity.
  assert (H2 : split_statements "SELECT 1; SELECT 2;; FOO ; SELECT 3" =
    app ["SELECT 1"; "SELECT 2"] ("FOO" :: ["SELECT 3"])) by (vm_compute; reflexivity).
  assert (H3 : run_statements demo_run 0 ["SELECT 1"; "SELECT 2"] =
    inr (2, [[[("n", "0")]]; [[("n", "1")]]])) by (vm_compute; reflexivity).
  assert (H4 : demo_run 2 "FOO" = inl "no such table: FOO") by (vm_compute; reflexivity).
  split; [exact H1 |]. split; [exact H2 |]. split; [exact H3 |]. split; [exact H4 |].
  exact (execute_raw_sql_first_error nat demo_connect demo_run demo_rollback demo_commit demo_tables
           demo_dumps_results demo_dumps_error 0 2 "SELECT 1; SELECT 2;; FOO ; SELECT 3"
           "FOO" "no such table: FOO" ["SELECT 1"; "SELECT 2"] ["SELECT 3"]
           [[[("n", "0")]]; [[("n", "1")]]] H1 H2 H3 H4).
Defined.


(** ** The loop of [_analyze_table_schema], field by field *)

(** The [elif 'DATE' in col_type or 'TIME' in col_type] branch is taken. *)
Definition date_category (ty : string) : bool :=
  negb (numeric_type ty) && negb (text_type ty) && date_type ty.

Lemma analyze_column_fields (a : table_analysis) (col : column) :
  let ty := upper (col_type col) in
  let name := col_name col in
  row_count (analyze_column a col) = row_count a /\
  column_types (analyze_column a col) = dict_set name ty (column_types a) /\
  numeric_columns (analyze_column a col) =
    app (numeric_columns a) (if numeric_type ty then [name] else []) /\
  text_columns (analyze_column a col) =
    app (text_columns a) (if negb (numeric_type ty) && text_type ty then [name] else []) /\
  primary_keys (analyze_column a col) =
    app (primary_keys a) (if col_primary_key col then [name] else []) /\
  has_timestamps (analyze_column a col) = has_timestamps a || timestamp_name name /\
  likely_relationships (analyze_column a col) = likely_relationships a /\
  date_columns (analyze_column a col) =
    (let d1 := app (date_columns a) (if date_category ty then [name] else []) in
     if timestamp_name name then (if list_in name d1 then d1 else app d1 [name]) else d1).
Proof.
  cbv zeta. unfold analyze_column, detect_timestamp, categorize, date_category. cbv zeta.
  destruct (col_primary_key col), (numeric_type (upper (col_type col))),
    (text_type (upper (col_type col))), (date_type (upper (col_type col))),
    (timestamp_name (col_name col));
    simpl; rewrite ?app_nil_r, ?orb_false_r, ?orb_true_r; repeat split.
Qed.

Lemma fold_analyze_app (proj : table_analysis -> list string) (g : column -> list string)
    (cols : list column) (a : table_analysis) :
  (forall a' col, proj (analyze_column a' col) = app (proj a') (g col)) ->
  proj (fold_left analyze_column cols a) = app (proj a) (concat (map g cols)).
Proof.
  intros Hstep. revert a. induction cols as [| col cols IH]; intros a; simpl.
  - now rewrite app_nil_r.
  - rewrite IH, Hstep. now rewrite app_assoc.
Qed.

Lemma fold_analyze_row_count (cols : list column) (a : table_analysis) :
  row_count (fold_left analyze_column cols a) = row_count a /\
  likely_relationships (fold_left analyze_column cols a) = likely_relationships a /\
  has_timestamps (fold_left analyze_column cols a) =
    has_timestamps a || existsb (fun c => timestamp_name (col_name c)) cols.
Proof.
  revert a. induction cols as [| col cols IH]; intros a; simpl.
  - now rewrite orb_false_r.
  - destruct (IH (analyze_column a col)) as [H1 [H2 H3]].
    destruct (analyze_column_fields a col) as [F1 [_ [_ [_ [_ [F6 [F7 _]]]]]]].
    rewrite H1, H2, H3, F1, F7, F6. split; [reflexivity | split; [reflexivity |]].
    now rewrite orb_assoc.
Qed.

Lemma dict_get_set {V} (k k' : string) (v def : V) (d : list (string * V)) :
  dict_get k def (dict_set k' v d) = if String.eqb k k' then v else dict_get k def d.
Proof.
  induction d as [| [k0 v0] d IH]; simpl.
  - reflexivity.
  - destruct (String.eqb k' k0) eqn:E0; simpl.
    + apply String.eqb_eq in E0. subst k0. destruct (String.eqb k k'); reflexivity.
    + rewrite IH. destruct (String.eqb k k') eqn:E; [| reflexivity].
      apply String.eqb_eq in E. subst k'. now rewrite E0.
Qed.

Lemma dict_set_keys {V} (k : string) (v : V) (d : list (string * V)) (x : string) :
  In x (map fst (dict_set k v d)) <-> In x (map fst d) \/ x = k.
Proof.
  induction d as [| [k0 v0] d IH]; simpl.
  - intuition congruence.
  - destruct (String.eqb k k0) eqn:E; simpl.
    + apply String.eqb_eq in E. subst k0. intuition congruence.
    + rewrite IH. tauto.
Qed.

Lemma dict_set_nodup {V} (k : string) (v : V) (d : list (string * V)) :
  NoDup (map fst d) -> NoDup (map fst (dict_set k v d)).
Proof.
  induction d as [| [k0 v0] d IH]; simpl; intros Hd.
  - constructor; [intros [] | constructor].
  - inversion Hd as [| ? ? Hn Hd']; subst.
    destruct (String.eqb k k0) eqn:E; simpl.
    + apply String.eqb_eq in E. subst k0. constructor; assumption.
    + constructor; [| exact (IH Hd')].
      rewrite dict_set_keys. intros [H | H]; [exact (Hn H) |].
      subst k0. now rewrite String.eqb_refl in E.
Qed.

Lemma fold_analyze_column_types (cols : list column) (a : table_analysis) :
  (forall k def, dict_get k def (column_types (fold_left analyze_column cols a)) =
     fold_left (fun acc c => if String.eqb k (col_name c) then upper (col_type c) else acc)
       cols (dict_get k def (column_types a))) /\
  (NoDup (map fst (column_types a)) ->
     NoDup (map fst (column_types (fold_left analyze_column cols a)))) /\
  (forall k, In k (map fst (column_types (fold_left analyze_column cols a))) <->
     In k (map fst (column_types a)) \/ In k (map col_name cols)).
Proof.
  revert a. induction cols as [| col cols IH]; intros a; simpl.
  - split; [reflexivity | split; [auto | tauto]].
  - destruct (IH (analyze_column a col)) as [H1 [H2 H3]].
    destruct (analyze_column_fields a col) as [_ [F2 _]].
    split; [| split].
    + intros k def. rewrite H1, F2, dict_get_set. reflexivity.
    + intros Hd. apply H2. rewrite F2. now apply dict_set_nodup.
    + intros k. rewrite H3, F2, dict_set_keys. split; intros H; intuition congruence.
Qed.

Lemma date_update_in (d : list string) (name n : string) (cat ts : bool) :
  In n (let d1 := app d (if cat then [name] else []) in
        if ts then (if list_in name d1 then d1 else app d1 [name]) else d1) <->
  In n d \/ (name = n /\ (cat = true \/ ts = true)).
Proof.
  cbv zeta.
  assert (Hd1 : forall x, In x (app d (if cat then [name] else [])) <->
                In x d \/ (name = x /\ cat = true)).
  { intros x. rewrite in_app_iff. destruct cat; simpl; intuition congruence. }
  destruct ts.
  - destruct (list_in name (app d (if cat then [name] else []))) eqn:E.
    + apply list_in_iff in E. rewrite Hd1. split; [intuition |].
      intros [H | [<- _]]; [left; exact H |]. apply Hd1 in E. exact E.
    + rewrite in_app_iff, Hd1. simpl. intuition.
  - rewrite Hd1. intuition congruence.
Qed.

Lemma date_step_in (a : table_analysis) (col : column) (n : string) :
  In n (date_columns (analyze_column a col)) <->
  In n (date_columns a) \/
  (col_name col = n /\
   (date_category (upper (col_type col)) = true \/ timestamp_name (col_name col) = true)).
Proof.
  destruct (analyze_column_fields a col) as [_ [_ [_ [_ [_ [_ [_ F]]]]]]].
  rewrite F. apply date_update_in.
Qed.

(** X7: the analysis of a table keeps its row count and lists, in column
    order, as numeric the columns whose upper-cased type contains INT,
    REAL, FLOAT or NUMERIC, as text the other columns whose type contains
    TEXT, CHAR or VARCHAR, and as primary keys the flagged columns; it
    reports timestamps exactly when some column name passes the name
    heuristic, and never fills [likely_relationships]. *)
Theorem analyze_table_schema_lists (t : string) (schema : table_schema) :
  let cols := sch_columns schema in
  let a := _analyze_table_schema t schema in
  row_count a = sch_row_count schema /\
  numeric_columns a =
    map col_name (filter (fun c => numeric_type (upper (col_type c))) cols) /\
  text_columns a =
    map col_name (filter (fun c => negb (numeric_type (upper (col_type c))) &&
                                   text_type (upper (col_type c))) cols) /\
  primary_keys a = map col_name (filter col_primary_key cols) /\
  has_timestamps a = existsb (fun c => timestamp_name (col_name c)) cols /\
  likely_relationships a = [].
Proof.
  cbv zeta. unfold _analyze_table_schema.
  destruct (fold_analyze_row_count (sch_columns schema) (init_analysis (sch_row_count schema)))
    as [H1 [H2 H3]].
  rewrite H1, H2, H3. split; [reflexivity |].
  split; [| split; [| split]].
  - rewrite (fold_analyze_app numeric_columns
               (fun c => if numeric_type (upper (col_type c)) then [col_name c] else [])).
    + simpl. apply concat_map_if.
    + intros a' col. apply analyze_column_fields.
  - rewrite (fold_analyze_app text_columns
               (fun c => if negb (numeric_type (upper (col_type c))) &&
                            text_type (upper (col_type c)) then [col_name c] else [])).
    + simpl. apply concat_map_if.
    + intros a' col. apply analyze_column_fields.
  - rewrite (fold_analyze_app primary_keys
               (fun c => if col_primary_key c then [col_name c] else [])).
    + simpl. apply concat_map_if.
    + intros a' col. apply analyze_column_fields.
  - split; reflexivity.
Qed.

(** X8: [column_types] maps each column name to the upper-cased type of
    the last column carrying that name (a later duplicate overwrites an
    earlier one); its keys are exactly the column names, each once. *)
Theorem analyze_table_schema_column_types (t : string) (schema : table_schema) :
  let cols := sch_columns schema in
  let a := _analyze_table_schema t schema in
  (forall k def, dict_get k def (column_types a) =
     fold_left (fun acc c => if String.eqb k (col_name c) then upper (col_type c) else acc)
       cols def) /\
  NoDup (map fst (column_types a)) /\
  (forall k, In k (map fst (column_types a)) <-> In k (map col_name cols)).
Proof.
  cbv zeta. unfold _analyze_table_schema.
  destruct (fold_analyze_column_types (sch_columns schema) (init_analysis (sch_row_count schema)))
    as [H1 [H2 H3]].
  split; [| split].
  - intros k def. apply H1.
  - apply H2. constructor.
  - intros k. rewrite H3. simpl. tauto.
Qed.

Lemma fold_date_in (cols : list column) (a : table_analysis) (n : string) :
  In n (date_columns (fold_left analyze_column cols a)) <->
  In n (date_columns a) \/
  exists c, In c cols /\ col_name c = n /\
    (date_category (upper (col_type c)) = true \/ timestamp_name n = true).
Proof.
  revert a. induction cols as [| col cols IH]; intros a; simpl.
  - split; [tauto |]. intros [H | [c [[] _]]]. exact H.
  - rewrite IH, date_step_in. split.
    + intros [[H | [Hn Hc]] | [c [Hin Hc]]].
      * left. exact H.
      * right. exists col. subst n. auto.
      * right. exists c. auto.
    + intros [H | [c [[<- | Hin] [Hn Hc]]]].
      * left. left. exact H.
      * left. right. subst n. auto.
      * right. exists c. auto.
Qed.

(** X9: a name is among the date columns of the analysis exactly when
    some column carries it and either its upper-cased type falls in the
    date branch of the type chain (contains DATE or TIME, but none of the
    numeric or text markers) or the name passes the timestamp heuristic. *)
Theorem analyze_table_schema_date_columns (t : string) (schema : table_schema) (n : string) :
  In n (date_columns (_analyze_table_schema t schema)) <->
  exists c, In c (sch_columns schema) /\ col_name c = n /\
    (date_category (upper (col_type c)) = true \/ timestamp_name n = true).
Proof.
  unfold _analyze_table_schema. rewrite fold_date_in. simpl. tauto.
Qed.

Lemma fold_date_nodup (cols : list column) (a : table_analysis) :
  NoDup (map col_name cols) -> NoDup (date_columns a) ->
  (forall x, In x (date_columns a) -> ~ In x (map col_name cols)) ->
  NoDup (date_columns (fold_left analyze_column cols a)).
Proof.
  revert a. induction cols as [| col cols IH]; intros a Hn Hd Hfresh; simpl; [exact Hd |].
  inversion Hn as [| ? ? Hnot Hn']; subst.
  apply IH; [exact Hn' | |].
  - destruct (analyze_column_fields a col) as [_ [_ [_ [_ [_ [_ [_ F]]]]]]].
    rewrite F. cbv zeta.
    assert (Hnew : ~ In (col_name col) (date_columns a)).
    { intros H. apply (Hfresh _ H). left. reflexivity. }
    assert (Hd1 : NoDup (app (date_columns a)
                   (if date_category (upper (col_type col)) then [col_name col] else []))).
    { destruct (date_category (upper (col_type col))).
      - apply NoDup_app; [exact Hd | constructor; [intros [] | constructor] |].
        intros x Hx [<- | []]. exact (Hnew Hx).
      - rewrite app_nil_r. exact Hd. }
    destruct (timestamp_name (col_name col)); [| exact Hd1].
    destruct (list_in (col_name col) _) eqn:E; [exact Hd1 |].
    apply NoDup_app; [exact Hd1 | constructor; [intros [] | constructor] |].
    intros x Hx [<- | []]. apply Bool.not_true_iff_false in E. apply E.
    apply list_in_iff. exact Hx.
  - intros x Hx Hin. apply date_step_in in Hx as [Hx | [Hx _]].
    + apply (Hfresh x Hx). right. exact Hin.
    + subst x. exact (Hnot Hin).
Qed.

(** X10: when the column names of a table are distinct, no name is listed
    twice among its date columns, even for a date-typed column whose name
    also passes the timestamp heuristic. *)
Theorem analyze_table_schema_date_nodup (t : string) (schema : table_schema) :
  NoDup (map col_name (sch_columns schema)) ->
  NoDup (date_columns (_analyze_table_schema t schema)).
Proof.
  intros Hn. unfold _analyze_table_schema. apply fold_date_nodup; [exact Hn | constructor |].
  intros x [].
Qed.

Lemma nodup_fixed (l : list string) : nodup String.string_dec l = l -> NoDup l.
Proof. intros H. rewrite <- H. apply NoDup_nodup. Qed.

(** [events(id INTEGER PRIMARY KEY, created_at DATETIME, updated TEXT,
    score_time REAL)] with 12 rows. *)
Definition events_schema : table_schema :=
  mkSchema "events" [mkColumn "id" "INTEGER" false true; mkColumn "created_at" "DATETIME" false false;
                     mkColumn "updated" "TEXT" false false; mkColumn "score_time" "REAL" false false]
    12 [].

Lemma analyze_table_schema_date_nodup_witness :
  NoDup (map col_name (sch_columns events_schema)) /\
  NoDup (date_columns (_analyze_table_schema "events" events_schema)) /\
  date_columns (_analyze_table_schema "events" events_schema) = ["created_at"; "updated"].
Proof.
  assert (H : NoDup (map col_name (sch_columns events_schema))).
  { apply nodup_fixed. vm_compute. reflexivity. }
  split; [exact H |]. split; [exact (analyze_table_schema_date_nodup "events" events_schema H) |].
  vm_compute. reflexivity.
Defined.

(** ** Suggested queries and relationships *)

Lemma contains_self (p : string) : contains p p = true.
Proof. apply startswith_contains, startswith_refl. Qed.

Lemma contains_cons (p : string) (c : ascii) (s : string) :
  contains p s = true -> contains p (String c s) = true.
Proof. intros H. cbn [contains]. rewrite H. apply orb_true_r. Qed.

Lemma contains_here (p y : string) : contains p (p ++ y) = true.
Proof. apply startswith_contains, startswith_app, startswith_refl. Qed.

Ltac find_infix :=
  repeat first [ exact (contains_self _) | exact (contains_here _ _)
               | apply contains_cons | apply contains_app_l ].

Lemma length_concat_map_if {A B} (f : A -> bool) (h : A -> B) (l : list A) :
  length (concat (map (fun c => if f c then [h c] else []) l)) <= length l.
Proof. rewrite concat_map_if, length_map. apply filter_length_le. Qed.

(** X11: for any table, at most nine queries are suggested (two basic, two
    date-based, three statistics, two popularity queries), and the SQL of
    every one of them reads [FROM <table>]. *)
Theorem generate_table_queries_shape (t : string) (a : table_analysis) :
  length (_generate_table_queries t a) <= 9 /\
  Forall (fun q => contains ("FROM " ++ t) (q_sql q) = true) (_generate_table_queries t a).
Proof.
  unfold _generate_table_queries. split.
  - rewrite !length_app.
    assert (Hb : length (basic_queries t a) <= 2).
    { unfold basic_queries. destruct (Nat.ltb 0 (row_count a)); simpl; lia. }
    assert (Hd : length (date_queries t a) <= 2).
    { unfold date_queries. destruct (date_columns a); simpl; lia. }
    assert (Hn : length (numeric_queries t a) <= 3).
    { unfold numeric_queries.
      eapply Nat.le_trans; [apply (length_concat_map_if (fun c => negb (contains "id" (lower c))))|].
      apply firstn_le_length. }
    assert (Ht : length (text_queries t a) <= 2).
    { unfold text_queries.
      eapply Nat.le_trans;
        [apply (length_concat_map_if
                  (fun c => any_in ["title"; "name"; "description"; "summary"] (lower c)))|].
      apply firstn_le_length. }
    lia.
  - rewrite !Forall_app. split; [| split; [| split]].
    + unfold basic_queries. destruct (Nat.ltb 0 (row_count a)); [| constructor].
      constructor; [| constructor; [| constructor]]; cbn [q_sql]; find_infix.
    + unfold date_queries. destruct (date_columns a) as [| d _]; [constructor |].
      constructor; [| constructor; [| constructor]]; cbn [q_sql]; find_infix.
    + unfold numeric_queries.
      apply (Forall_concat_map_if (fun q => contains ("FROM " ++ t) (q_sql q) = true)).
      intros c. cbn [q_sql stats_query popular_query]. find_infix.
    + unfold text_queries.
      apply (Forall_concat_map_if (fun q => contains ("FROM " ++ t) (q_sql q) = true)).
      intros c. cbn [q_sql stats_query popular_query]. find_infix.
Qed.

Lemma fk_match_iff (t c o : string) :
  fk_match t c o = true <-> o <> t /\ contains (lower o) (lower c) = true.
Proof.
  split; [apply fk_match_spec |]. intros [Hne Hc]. unfold fk_match.
  apply andb_true_iff. split.
  - apply negb_true_iff, String.eqb_neq. exact Hne.
  - rewrite Hc. apply orb_true_r.
Qed.

(** X12: the relationship scan proposes [t.c -> o] exactly when [t] is an
    analysed table with a column [c], [o] is another analysed table, and
    the lower-cased [o] occurs in the lower-cased [c]; the prefix and
    suffix tests add nothing beyond that substring test. *)
Theorem relationship_edges_iff (m : list (string * table_analysis)) (t c o : string) :
  In (mkEdge t c o) (relationship_edges m) <->
  (exists a, In (t, a) m /\ In c (map fst (column_types a))) /\
  In o (map fst m) /\ o <> t /\ contains (lower o) (lower c) = true.
Proof.
  split.
  - intros H. apply relationship_edges_sound in H as [a [Ha [Hc [Ho Hf]]]].
    simpl in *. apply fk_match_iff in Hf. split; [exists a; auto | auto].
  - intros [[a [Ha Hc]] [Ho Hf]]. apply fk_match_iff in Hf.
    unfold relationship_edges. apply in_concat.
    exists (concat (map (fun col_name =>
              concat (map (fun other_table =>
                if fk_match t col_name other_table
                then [mkEdge t col_name other_table] else []) (map fst m)))
              (map fst (column_types a)))).
    split; [apply in_map_iff; exists (t, a); auto |].
    apply in_concat.
    exists (concat (map (fun other_table =>
              if fk_match t c other_table then [mkEdge t c other_table] else []) (map fst m))).
    split; [apply in_map_iff; exists c; auto |].
    apply in_concat. exists [mkEdge t c o]. split; [| left; reflexivity].
    apply in_map_iff. exists o. rewrite Hf. auto.
Qed.

(** ** The ranking of the largest tables *)

From Stdlib Require Import Sorted Permutation.

Lemma insert_desc_perm (x : string * nat) (l : list (string * nat)) :
  Permutation (insert_desc x l) (x :: l).
Proof.
  induction l as [| y l IH]; simpl; [reflexivity |].
  destruct (Nat.ltb (snd y) (snd x)); [reflexivity |].
  transitivity (y :: x :: l); [constructor; exact IH | apply perm_swap].
Qed.

Lemma insert_desc_sorted (x : string * nat) (l : list (string * nat)) :
  Sorted (fun p q => snd q <= snd p) l ->
  Sorted (fun p q => snd q <= snd p) (insert_desc x l).
Proof.
  induction l as [| y l IH]; intros H; simpl.
  - constructor; constructor.
  - destruct (Nat.ltb (snd y) (snd x)) eqn:E.
    + apply Nat.ltb_lt in E. constructor; [exact H |]. constructor. lia.
    + apply Nat.ltb_ge in E. apply Sorted_inv in H as [Hl Hh].
      constructor; [exact (IH Hl) |].
      destruct l as [| z l]; simpl; [constructor; exact E |].
      destruct (Nat.ltb (snd z) (snd x)); constructor; [exact E |].
      inversion Hh; assumption.
Qed.

Lemma filter_none {A} (f : A -> bool) (l : list A) :
  (forall z, In z l -> f z = false) -> filter f l = [].
Proof.
  induction l as [| z l IH]; intros H; simpl; [reflexivity |].
  rewrite (H z (or_introl eq_refl)). apply IH. intros w Hw. apply H. right. exact Hw.
Qed.

Lemma sorted_desc_all (y : string * nat) (l : list (string * nat)) :
  Sorted (fun p q => snd q <= snd p) (y :: l) -> forall z, In z (y :: l) -> snd z <= snd y.
Proof.
  intros H. apply Sorted_StronglySorted in H; [| intros p q r; lia].
  apply StronglySorted_inv in H as [_ Hall].
  intros z [<- | Hz]; [lia |]. rewrite Forall_forall in Hall. exact (Hall z Hz).
Qed.

Lemma insert_desc_filter (k : nat) (x : string * nat) (l : list (string * nat)) :
  Sorted (fun p q => snd q <= snd p) l ->
  filter (fun p => Nat.eqb (snd p) k) (insert_desc x l) =
    app (filter (fun p => Nat.eqb (snd p) k) l) (if Nat.eqb (snd x) k then [x] else []).
Proof.
  induction l as [| y l IH]; intros H; cbn [insert_desc].
  - simpl. destruct (Nat.eqb (snd x) k); reflexivity.
  - destruct (Nat.ltb (snd y) (snd x)) eqn:E.
    + apply Nat.ltb_lt in E. cbn [filter].
      destruct (Nat.eqb (snd x) k) eqn:Ex.
      * apply Nat.eqb_eq in Ex.
        assert (Hnone : filter (fun p => Nat.eqb (snd p) k) (y :: l) = []).
        { apply filter_none. intros z Hz. apply Nat.eqb_neq.
          pose proof (sorted_desc_all y l H z Hz). lia. }
        cbn [filter] in Hnone. rewrite Hnone. reflexivity.
      * rewrite app_nil_r. reflexivity.
    + apply Sorted_inv in H as [Hl _]. cbn [filter]. rewrite (IH Hl).
      destruct (Nat.eqb (snd y) k); reflexivity.
Qed.

Lemma sort_fold (xs acc : list (string * nat)) :
  Sorted (fun p q => snd q <= snd p) acc ->
  Permutation (fold_left (fun acc x => insert_desc x acc) xs acc) (app xs acc) /\
  Sorted (fun p q => snd q <= snd p) (fold_left (fun acc x => insert_desc x acc) xs acc) /\
  (forall k, filter (fun p => Nat.eqb (snd p) k) (fold_left (fun acc x => insert_desc x acc) xs acc) =
     app (filter (fun p => Nat.eqb (snd p) k) acc) (filter (fun p => Nat.eqb (snd p) k) xs)).
Proof.
  revert acc. induction xs as [| x xs IH]; intros acc H; simpl.
  - split; [reflexivity | split; [exact H |]]. intros k. now rewrite app_nil_r.
  - destruct (IH (insert_desc x acc) (insert_desc_sorted x acc H)) as [Hp [Hs Hf]].
    split; [| split; [exact Hs |]].
    + rewrite Hp. rewrite insert_desc_perm. symmetry. apply Permutation_middle.
    + intros k. rewrite Hf, (insert_desc_filter k x acc H), <- app_assoc.
      destruct (Nat.eqb (snd x) k); reflexivity.
Qed.

Lemma sort_desc_spec (xs : list (string * nat)) :
  Permutation (sort_desc xs) xs /\
  Sorted (fun p q => snd q <= snd p) (sort_desc xs) /\
  (forall k, filter (fun p => Nat.eqb (snd p) k) (sort_desc xs) =
             filter (fun p => Nat.eqb (snd p) k) xs).
Proof.
  unfold sort_desc. destruct (sort_fold xs [] (Sorted_nil _)) as [Hp [Hs Hf]].
  rewrite app_nil_r in Hp. split; [exact Hp | split; [exact Hs |]].
  intros k. rewrite Hf. reflexivity.
Qed.

(** X13: the ranking used for "Largest tables" is a correct stable sort:
    it reorders the (name, row count) pairs, puts them in non-increasing
    order of row count, and keeps tables with equal row counts in their
    original order. *)
Theorem sort_desc_stable (xs : list (string * nat)) :
  Permutation (sort_desc xs) xs /\
  Sorted (fun p q => snd q <= snd p) (sort_desc xs) /\
  (forall k, filter (fun p => Nat.eqb (snd p) k) (sort_desc xs) =
             filter (fun p => Nat.eqb (snd p) k) xs).
Proof. exact (sort_desc_spec xs). Qed.

Lemma summary_not_largest (n r : nat) :
  startswith (summary_line n r) "Largest tables: " = false.
Proof. reflexivity. Qed.

Lemma potential_not_largest (s : string) :
  startswith ("Potential relationships: " ++ s) "Largest tables: " = false.
Proof. reflexivity. Qed.

Lemma largest_is_largest (s : string) :
  startswith ("Largest tables: " ++ s) "Largest tables: " = true.
Proof. apply startswith_app, startswith_refl. Qed.

(** X14: the insights are one to three lines, and a "Largest tables" line
    is among them exactly when some analysed table has at least one row
    (a database whose tables are all empty gets no such line). *)
Theorem insights_largest_line (m : list (string * table_analysis)) :
  1 <= length (_generate_database_insights m) <= 3 /\
  ((exists s, In s (_generate_database_insights m) /\
              startswith s "Largest tables: " = true) <->
   (exists t a, In (t, a) m /\ 0 < row_count a)).
Proof.
  set (counts := map (fun '(name, a) => (name, row_count a)) m).
  assert (Hcounts : forall t a, In (t, a) m -> In (t, row_count a) counts).
  { intros t a H. apply in_map_iff. exists (t, a). auto. }
  assert (Hcounts' : forall t c, In (t, c) counts -> exists a, In (t, a) m /\ row_count a = c).
  { intros t c H. apply in_map_iff in H as [[t' a] [Heq H]]. injection Heq as -> <-.
    exists a. auto. }
  destruct (sort_desc_spec counts) as [Hp [Hs _]].
  unfold _generate_database_insights. fold counts.
  destruct (sort_desc counts) as [| [n0 c0] rest] eqn:Esort.
  - (* no table at all *)
    assert (Hm : counts = []).
    { apply Permutation_nil. exact Hp. }
    assert (Hm' : m = []).
    { destruct m; [reflexivity | discriminate Hm]. }
    subst m. split; [simpl; lia |]. split; [| intros [t [a [[] _]]]].
    intros [x [Hx H]]. simpl in Hx. destruct Hx as [<- | []]. discriminate H.
  - assert (Htop : forall t a, In (t, a) m -> row_count a <= c0).
    { intros t a H. apply Hcounts in H. apply (Permutation_in _ (Permutation_sym Hp)) in H.
      exact (sorted_desc_all (n0, c0) rest Hs _ H). }
    assert (Hhead : exists a, In (n0, a) m /\ row_count a = c0).
    { apply Hcounts'. apply (Permutation_in _ Hp). left. reflexivity. }
    cbn [firstn].
    destruct (Nat.ltb 0 c0) eqn:Ec.
    + apply Nat.ltb_lt in Ec.
      split.
      * destruct (map render_edge (relationship_edges m)); simpl; lia.
      * split.
        -- intros _. destruct Hhead as [a [Ha Hc]]. exists n0, a. split; [exact Ha | lia].
        -- intros _. eexists. split. 2: apply largest_is_largest.
           destruct (map render_edge (relationship_edges m)); simpl; right; left; reflexivity.
    + apply Nat.ltb_ge in Ec.
      split.
      * destruct (map render_edge (relationship_edges m)); simpl; lia.
      * split.
        -- destruct (map render_edge (relationship_edges m)) as [| e es].
           ++ intros [s [[<- | []] H]]. rewrite summary_not_largest in H. discriminate H.
           ++ intros [s [[<- | [<- | []]] H]].
              ** rewrite summary_not_largest in H. discriminate H.
              ** rewrite potential_not_largest in H. discriminate H.
        -- intros [t [a [Ha Hpos]]]. pose proof (Htop t a Ha). lia.
Qed.

(** ** Thousands separators *)

Definition not_comma (c : ascii) : bool := negb (Ascii.eqb c ",").

Lemma length_string_of_list_ascii (l : list ascii) :
  String.length (string_of_list_ascii l) = length l.
Proof. induction l as [| c l IH]; simpl; [reflexivity | now rewrite IH]. Qed.

Lemma digits_no_comma (u : Decimal.uint) :
  Forall (fun c => not_comma c = true) (list_ascii_of_string (NilZero.string_of_uint u)).
Proof.
  assert (H : forall d, Forall (fun c => not_comma c = true)
                          (list_ascii_of_string (NilEmpty.string_of_uint d))).
  { induction d; simpl; repeat constructor; assumption. }
  destruct u; [apply Forall_cons; [reflexivity | apply Forall_nil] | ..];
    (apply Forall_cons; [reflexivity | apply H]).
Qed.

Lemma str_nat_nonempty (n : nat) : str_nat n <> "".
Proof. unfold str_nat, NilZero.string_of_uint. destruct (Nat.to_uint n); discriminate. Qed.

Lemma group_rev_props (l : list ascii) :
  filter not_comma (group_rev l) = filter not_comma l /\
  (l <> [] -> length (group_rev l) = length l + (length l - 1) / 3).
Proof.
  remember (length l) as k eqn:Hk. revert l Hk.
  induction k as [k IH] using (well_founded_induction lt_wf). intros l Hk.
  destruct l as [| a [| b [| c [| d rest]]]];
    [subst k; split; [reflexivity | intros H; reflexivity] .. |].
  simpl in Hk.
  destruct (IH (length (d :: rest)) ltac:(simpl; lia) (d :: rest) eq_refl) as [Hf Hl].
  change (group_rev (a :: b :: c :: d :: rest)) with
    (a :: b :: c :: ","%char :: group_rev (d :: rest)).
  split.
  - cbn [filter]. rewrite Hf. reflexivity.
  - intros _. cbn [length]. rewrite Hl by discriminate. cbn [length].
    subst k. replace (S (S (S (S (length rest)))) - 1) with (length rest + 1 * 3) by lia.
    rewrite Nat.div_add by lia. replace (S (length rest) - 1) with (length rest) by lia.
    lia.
Qed.

(** X15: the thousands-separated rendering [f"{n:,}"] only inserts commas
    into the decimal digits of [n]: dropping them gives back [str(n)], and
    a number of [L] digits gets exactly [(L - 1) / 3] of them. *)
Theorem str_commas_digits (n : nat) :
  filter not_comma (list_ascii_of_string (str_commas n)) = list_ascii_of_string (str_nat n) /\
  String.length (str_commas n) =
    String.length (str_nat n) + (String.length (str_nat n) - 1) / 3.
Proof.
  unfold str_commas. rewrite list_ascii_of_string_of_list_ascii.
  set (ds := list_ascii_of_string (str_nat n)).
  assert (Hds : Forall (fun c => not_comma c = true) ds) by apply digits_no_comma.
  assert (Hne : ds <> []).
  { unfold ds. pose proof (str_nat_nonempty n) as H.
    destruct (str_nat n); [contradiction | discriminate]. }
  assert (Hlen : String.length (str_nat n) = length ds).
  { unfold ds. rewrite <- (length_string_of_list_ascii (list_ascii_of_string (str_nat n))).
    now rewrite string_of_list_ascii_of_string. }
  destruct (group_rev_props (rev ds)) as [Hf Hl].
  split.
  - rewrite filter_rev, Hf, filter_rev, rev_involutive.
    apply forallb_filter_id, forallb_forall. intros c Hc. rewrite Forall_forall in Hds.
    exact (Hds c Hc).
  - rewrite length_string_of_list_ascii, length_rev, Hl, length_rev, Hlen; [reflexivity |].
    intros H. apply Hne. rewrite <- (rev_involutive ds), H. reflexivity.
Qed.

(** ** Alignment of the text tables *)

Lemma join_length_eq (sep : string) (xs ys : list string) :
  map String.length xs = map String.length ys ->
  String.length (join sep xs) = String.length (join sep ys).
Proof.
  revert ys. induction xs as [| x xs IH]; intros ys H; destruct ys as [| y ys];
    try discriminate H; [reflexivity |].
  injection H as Hx Hr.
  destruct xs as [| x' xs'], ys as [| y' ys']; try discriminate Hr; [exact Hx |].
  change (join sep (x :: x' :: xs')) with (x ++ sep ++ join sep (x' :: xs')).
  change (join sep (y :: y' :: ys')) with (y ++ sep ++ join sep (y' :: ys')).
  rewrite !length_append, Hx, (IH (y' :: ys') Hr). reflexivity.
Qed.

Lemma header_cell_length (results : list row) (col : string) :
  String.length col <= 30 ->
  String.length (ljust col (col_width results col)) = col_width results col.
Proof.
  intros H. unfold ljust, col_width. rewrite length_append, length_repeat_char. lia.
Qed.

(** X16: in the text rendering of a non-empty batch whose column names
    have at most 30 characters, the header, the dash line under it and
    every row line have the same length, so the columns line up; only the
    final "Rows returned" line differs. *)
Theorem format_batch_aligned (r0 : row) (rest : list row) :
  Forall (fun col => String.length col <= 30) (map fst r0) ->
  forall line, In line (removelast (format_batch (r0 :: rest))) ->
    String.length line = String.length (hd "" (format_batch (r0 :: rest))).
Proof.
  intros Hcols line Hline.
  set (b := r0 :: rest) in *.
  set (cols := map fst r0) in *.
  set (header := join " | " (map (fun col => ljust col (col_width b col)) cols)).
  assert (Hfb : format_batch b =
    app (header :: repeat_char "-" (String.length header) ::
         map (fun r => join " | " (row_cells b cols r)) b)
        [String "010" ("Rows returned: " ++ str_nat (length b))]) by reflexivity.
  rewrite Hfb in Hline |- *. rewrite removelast_last in Hline. cbn [hd].
  destruct Hline as [<- | [<- | Hin]]; [reflexivity | apply length_repeat_char |].
  apply in_map_iff in Hin as [r [<- _]].
  apply join_length_eq. unfold row_cells. rewrite !map_map.
  apply map_ext_in. intros col Hc. rewrite render_cell_length.
  symmetry. apply header_cell_length. rewrite Forall_forall in Hcols. exact (Hcols col Hc).
Qed.

(** A batch with a short column and a value cut at 30 characters. *)
Definition aligned_batch : list row :=
  [[("id", "1"); ("title", "An introduction to relational databases")];
   [("id", "22"); ("title", "Notes")]].

Lemma format_batch_aligned_witness :
  Forall (fun col => String.length col <= 30) (map fst [("id", "1");
    ("title", "An introduction to relational databases")]) /\
  (forall line, In line (removelast (format_batch aligned_batch)) ->
     String.length line = String.length (hd "" (format_batch aligned_batch))).
Proof.
  assert (H : Forall (fun col => String.length col <= 30) (map fst [("id", "1");
    ("title", "An introduction to relational databases")])).
  { apply Forall_cons; [simpl; lia |]. apply Forall_cons; [simpl; lia |]. apply Forall_nil. }
  split; [exact H |].
  exact (format_batch_aligned [("id", "1"); ("title", "An introduction to relational databases")]
           [[("id", "22"); ("title", "Notes")]] H).
Defined.

Lemma main_multi_table_witness :
  "SELECT a; ; SELECT b" <> "" /\
  main_multi nat demo_connect demo_run demo_rollback demo_commit demo_tables
    demo_dumps_results demo_dumps_error demo_dumps_outputs 0 (Some "SELECT a; ; SELECT b") FmtTable =
    Some (fst (run_queries nat demo_connect demo_run demo_rollback demo_commit demo_tables
                 demo_dumps_results demo_dumps_error 0 FmtTable
                 (split_statements "SELECT a; ; SELECT b")),
          Some (join (String "010" "")
                  (multi_table_lines (length (split_statements "SELECT a; ; SELECT b")) 0
                     (split_statements "SELECT a; ; SELECT b")
                     (map text_of (snd (run_queries nat demo_connect demo_run demo_rollback
                        demo_commit demo_tables demo_dumps_results demo_dumps_error 0 FmtTable
                        (split_statements "SELECT a; ; SELECT b"))))))).
Proof.
  assert (H : "SELECT a; ; SELECT b" <> "") by discriminate.
  split; [exact H |].
  exact (main_multi_table nat demo_connect demo_run demo_rollback demo_commit demo_tables
           demo_dumps_results demo_dumps_error demo_dumps_outputs 0 "SELECT a; ; SELECT b" H).
Defined.
